(** * Dual-token authentication middleware of the REST API

    A shallow embedding of the Express middleware of [middleware/auth.ts]
    ([authenticateToken], the legacy [authenticateFirebaseUser], the two
    gates [requireAdmin] and [requireActiveUser]), of the Cloud Functions
    variant of [authenticateFirebaseUser], and of the [User] model of
    [models/User.ts] they rest on.

    JavaScript strings are modelled as [string], numbers and dates as [Z],
    optional object fields as [option].  An [async] middleware is a
    computation over an explicit state (the Account collection, a log of the
    collaborator calls, and the request and response objects it mutates)
    that either completes or throws; [try]/[catch] is a combinator. *)

From Stdlib Require Import String Ascii List Bool ZArith Lia.
Import ListNotations.
Local Open Scope string_scope.
Local Open Scope Z_scope.

Set Implicit Arguments.

(* ================================================================== *)
(** ** String primitives of the host language *)

Module Js.

(** [s.startsWith(p)] *)
Definition startsWith (s p : string) : bool := String.prefix p s.

(** [s.includes(sub)] *)
Fixpoint includes (s sub : string) : bool :=
  String.prefix sub s ||
  match s with
  | EmptyString => false
  | String _ s' => includes s' sub
  end.

Definition lower_ascii (c : ascii) : ascii :=
  let n := nat_of_ascii c in
  if (Nat.leb 65 n && Nat.leb n 90)%bool then ascii_of_nat (n + 32) else c.

(** What [s.toLowerCase()] gives on ASCII text *)
Fixpoint ascii_toLowerCase (s : string) : string :=
  match s with
  | EmptyString => EmptyString
  | String c s' => String (lower_ascii c) (ascii_toLowerCase s')
  end.

Definition is_space (c : ascii) : bool :=
  let n := nat_of_ascii c in
  (Nat.eqb n 32 || (Nat.leb 9 n && Nat.leb n 13))%bool.

Fixpoint trimStart (s : string) : string :=
  match s with
  | EmptyString => EmptyString
  | String c s' => if is_space c then trimStart s' else s
  end.

Fixpoint trimEnd (s : string) : string :=
  match s with
  | EmptyString => EmptyString
  | String c s' =>
      match trimEnd s' with
      | EmptyString => if is_space c then EmptyString else String c EmptyString
      | t => String c t
      end
  end.

(** What [s.trim()] gives on ASCII text *)
Definition ascii_trim (s : string) : string := trimEnd (trimStart s).

(** The two methods of [String.prototype] whose result depends on the
    Unicode tables of the runtime: [s.toLowerCase()] and [s.trim()].  They
    are taken from the surroundings of a run, and nothing is assumed of
    them. *)
Record Runtime : Type := {
  toLowerCase : string -> string;
  trim : string -> string
}.

(** A runtime for text that is ASCII throughout, as in the sample runs. *)
Definition ascii_runtime : Runtime :=
  {| toLowerCase := ascii_toLowerCase; trim := ascii_trim |}.

(** [s.split(sep)] for a non-empty separator: the text is cut at each
    occurrence of [sep], found from left to right without overlap.  [skip]
    counts the characters of a separator still to be passed over and [cur]
    is the piece read so far. *)
Fixpoint split_from (sep : string) (skip : nat) (cur s : string) : list string :=
  match s with
  | EmptyString => [cur]
  | String c s' =>
      match skip with
      | S k => split_from sep k cur s'
      | O =>
          if String.prefix sep s
          then cur :: split_from sep (String.length sep - 1) EmptyString s'
          else split_from sep 0 (cur ++ String c EmptyString) s'
      end
  end.

Definition split (s sep : string) : list string := split_from sep 0 EmptyString s.

(** Truthiness of a possibly undefined string: [!x] is [negb (truthy x)]. *)
Definition truthy (x : option string) : bool :=
  match x with
  | None => false
  | Some s => negb (String.eqb s EmptyString)
  end.

(** [a || b] on possibly undefined strings, with a defined fallback *)
Definition or_else (a : option string) (b : string) : string :=
  match a with
  | Some s => if String.eqb s EmptyString then b else s
  | None => b
  end.

(** A thrown value: an [Error] object (name, message, optional numeric
    code) or some other value, for which [instanceof Error] is false. *)
Inductive Thrown : Type :=
| ErrorObj (name message : string) (code : option Z)
| NotAnError (repr : string).

End Js.

(* ================================================================== *)
(** ** The User model ([models/User.ts]) *)

Inductive UserRole : Type := USER | ADMIN.

Definition UserRole_eqb (a b : UserRole) : bool :=
  match a, b with
  | USER, USER | ADMIN, ADMIN => true
  | _, _ => false
  end.

Record Profile : Type := {
  firstName : option string;
  lastName : option string;
  phone : option string;
  address : option string;
  dateOfBirth : option Z
}.

Definition emptyProfile : Profile :=
  {| firstName := None; lastName := None; phone := None; address := None;
     dateOfBirth := None |}.

(** A User document, in memory or stored.  The fields are those of
    [userSchema]; the [createdAt]/[updatedAt] stamps that the option
    [timestamps: true] makes the driver maintain are not represented. *)
Record IUser : Type := {
  uid : string;
  email : option string;
  displayName : option string;
  photoURL : option string;
  role : UserRole;
  isActive : bool;
  profile : Profile;
  lastLoginAt : option Z
}.

Definition set_lastLoginAt (d : IUser) (t : Z) : IUser :=
  {| uid := uid d; email := email d; displayName := displayName d;
     photoURL := photoURL d; role := role d; isActive := isActive d;
     profile := profile d; lastLoginAt := Some t |}.

(** [userSchema.methods.isAdmin] *)
Definition isAdmin (d : IUser) : bool := UserRole_eqb (role d) ADMIN.

(** [new User({uid, email, displayName, photoURL, role, isActive,
    lastLoginAt})]: the schema setters run on construction ([lowercase] on
    [email], [trim] on [displayName]). *)
Definition User_new (rt : Js.Runtime) (u : string) (e n p : option string)
    (r : UserRole) (a : bool) (t : Z) : IUser :=
  {| uid := u;
     email := option_map (Js.toLowerCase rt) e;
     displayName := option_map (Js.trim rt) n;
     photoURL := p;
     role := r;
     isActive := a;
     profile := emptyProfile;
     lastLoginAt := Some t |}.

(** The Account collection, in insertion order. *)
Definition Collection : Type := list IUser.

Definition opt_string_eqb (a b : option string) : bool :=
  match a, b with
  | Some x, Some y => String.eqb x y
  | None, None => true
  | _, _ => false
  end.

(** The query [{ uid: u, isActive: true }] *)
Definition matches_active (u : string) (d : IUser) : bool :=
  (String.eqb (uid d) u && isActive d)%bool.

(** What [User.findOne({ uid: u, isActive: true })] resolves to. *)
Definition find_active (c : Collection) (u : string) : option IUser :=
  find (matches_active u) c.

(** [required: true] on a String path rejects undefined and the empty
    string. *)
Definition required_ok (x : option string) : bool := Js.truthy x.

Definition validation_error : Js.Thrown :=
  Js.ErrorObj "ValidationError" "User validation failed" None.

(** The rejection of an insert that breaks a unique index. *)
Definition duplicate_key_error (path : string) : Js.Thrown :=
  Js.ErrorObj "MongoServerError"
    ("E11000 duplicate key error collection: users index: " ++ path ++ "_1 dup key")
    (Some 11000).


(** Schema validation of a document about to be saved: [uid] and [email]
    are [required]. *)
Definition validate_user (d : IUser) : bool :=
  (required_ok (Some (uid d)) && required_ok (email d))%bool.

(** Insertion of a new document under the two unique indexes ([uid] and
    [email]). *)
Definition insert_user (c : Collection) (d : IUser) : Js.Thrown + Collection :=
  if existsb (fun x => String.eqb (uid x) (uid d)) c
  then inl (duplicate_key_error "uid")
  else if existsb (fun x => opt_string_eqb (email x) (email d)) c
  then inl (duplicate_key_error "email")
  else inr (c ++ [d])%list.

(** Saving a fetched document whose only modified path is [lastLoginAt]:
    that path is set on the stored document.  Documents are addressed by
    [uid], which the schema declares unique and no code path changes. *)
Definition update_lastLoginAt (c : Collection) (u : string) (t : Z) : Collection :=
  map (fun x => if String.eqb (uid x) u then set_lastLoginAt x t else x) c.

(** Number of stored Accounts with a given subject id. *)
Definition count_uid (c : Collection) (u : string) : nat :=
  List.length (filter (fun x => String.eqb (uid x) u) c).

(* ================================================================== *)
(** ** Tokens, requests, responses ([types.ts]) *)

(** Payload of a locally issued access token, as [jwt.verify] returns it.
    The cast to [AccessTokenPayload] is unchecked, so [type] is any string. *)
Record AccessTokenPayload : Type := {
  at_uid : string;
  at_email : string;
  at_role : string;
  at_iat : Z;
  at_exp : Z;
  at_type : string
}.

(** The claims of a verified identity token ([DecodedIdToken]). *)
Record DecodedIdToken : Type := {
  id_uid : string;
  id_email : option string;
  id_name : option string;
  id_picture : option string;
  id_aud : string;
  id_auth_time : Z;
  id_exp : Z;
  id_iat : Z;
  id_iss : string;
  id_sub : string;
  id_sign_in_provider : string
}.

(** [req.headers.authorization] *)
Record Request : Type := { authorization : option string }.

(** The JSON body [{ success: false, error, message }] sent with a status. *)
Record ErrorResponse : Type := {
  status : Z;
  error : string;
  message : string
}.

(** The collaborator calls a run can make. *)
Inductive Call : Type :=
| CallJwtVerify (token secret : string)
| CallVerifyIdToken (token : string)
| CallFindOne (u : string)
| CallSave (u : string).



Definition is_provider_call (c : Call) : bool :=
  match c with
  | CallVerifyIdToken _ => true
  | _ => false
  end.

Inductive StoreOp : Type := OpFindOne | OpSave.

(** The surroundings of one run: the runtime, the process environment,
    the two verifiers, the clock, and the faults of the store (when
    [store_fault op] is [Some e] the store operation [op] rejects with
    [e]). *)
Record Env : Type := {
  runtime : Js.Runtime;
  JWT_SECRET : option string;
  jwt_verify : string -> string -> Js.Thrown + AccessTokenPayload;
  verifyIdToken : string -> Js.Thrown + DecodedIdToken;
  now : Z;
  store_fault : StoreOp -> option Js.Thrown
}.

(** What a run reads and writes: the collection, the log of collaborator
    calls, the fields [user] and [mongoUser] of the request, the responses
    sent, and how many times [next()] was called. *)
Record State : Type := {
  users : Collection;
  calls : list Call;
  req_user : option DecodedIdToken;
  req_mongoUser : option IUser;
  sent : list ErrorResponse;
  next_calls : nat
}.

(** The state in which a fresh request meets the collection [c]. *)
Definition begin_request (c : Collection) : State :=
  {| users := c; calls := []; req_user := None; req_mongoUser := None;
     sent := []; next_calls := 0 |}.

(* ================================================================== *)
(** ** Computations that may throw *)

Inductive Completion (A : Type) : Type :=
| Normal (a : A)
| Abrupt (e : Js.Thrown).

Arguments Normal {A} a.
Arguments Abrupt {A} e.

Definition M (A : Type) : Type := State -> Completion A * State.

Definition ret {A} (a : A) : M A := fun s => (Normal a, s).

Definition throw {A} (e : Js.Thrown) : M A := fun s => (Abrupt e, s).

Definition bind {A B} (m : M A) (k : A -> M B) : M B :=
  fun s =>
    match m s with
    | (Normal a, s') => k a s'
    | (Abrupt e, s') => (Abrupt e, s')
    end.

(** [try { m } catch (e) { h e }]: the effects of [m] up to the throw
    stay. *)
Definition try_catch {A} (m : M A) (h : Js.Thrown -> M A) : M A :=
  fun s =>
    match m s with
    | (Normal a, s') => (Normal a, s')
    | (Abrupt e, s') => h e s'
    end.

Notation "x <- m ;; k" := (bind m (fun x => k))
  (at level 61, m at next level, right associativity).
Notation "m ;;; k" := (bind m (fun _ => k))
  (at level 61, right associativity).

Definition modify (f : State -> State) : M unit := fun s => (Normal tt, f s).

Definition record_call (c : Call) : M unit :=
  modify (fun s =>
    {| users := users s; calls := (calls s ++ [c])%list; req_user := req_user s;
       req_mongoUser := req_mongoUser s; sent := sent s;
       next_calls := next_calls s |}).

Definition set_users (c : Collection) : M unit :=
  modify (fun s =>
    {| users := c; calls := calls s; req_user := req_user s;
       req_mongoUser := req_mongoUser s; sent := sent s;
       next_calls := next_calls s |}).

(** [req.user = t] *)
Definition set_req_user (t : DecodedIdToken) : M unit :=
  modify (fun s =>
    {| users := users s; calls := calls s; req_user := Some t;
       req_mongoUser := req_mongoUser s; sent := sent s;
       next_calls := next_calls s |}).

(** [req.mongoUser = d] *)
Definition set_req_mongoUser (d : IUser) : M unit :=
  modify (fun s =>
    {| users := users s; calls := calls s; req_user := req_user s;
       req_mongoUser := Some d; sent := sent s;
       next_calls := next_calls s |}).

(** [res.status(st).json({ success: false, error: e, message: m })] *)
Definition respond (st : Z) (e m : string) : M unit :=
  modify (fun s =>
    {| users := users s; calls := calls s; req_user := req_user s;
       req_mongoUser := req_mongoUser s;
       sent := (sent s ++ [{| status := st; error := e; message := m |}])%list;
       next_calls := next_calls s |}).

(** [next()] *)
Definition next : M unit :=
  modify (fun s =>
    {| users := users s; calls := calls s; req_user := req_user s;
       req_mongoUser := req_mongoUser s; sent := sent s;
       next_calls := S (next_calls s) |}).

Definition of_result {A} (r : Js.Thrown + A) : M A :=
  match r with
  | inl e => throw e
  | inr a => ret a
  end.

Definition fault_of (f : option Js.Thrown) : M unit :=
  match f with
  | Some e => throw e
  | None => ret tt
  end.

(* ================================================================== *)
(** ** The collaborators *)

(** [jwt.verify(token, secret)] *)
Definition jwt_verify_call (env : Env) (token secret : string) : M AccessTokenPayload :=
  record_call (CallJwtVerify token secret) ;;;
  of_result (jwt_verify env token secret).

(** [await auth.verifyIdToken(token)] *)
Definition verifyIdToken_call (env : Env) (token : string) : M DecodedIdToken :=
  record_call (CallVerifyIdToken token) ;;;
  of_result (verifyIdToken env token).

(** [await User.findOne({ uid: u, isActive: true })] *)
Definition findOne (env : Env) (u : string) : M (option IUser) :=
  record_call (CallFindOne u) ;;;
  fault_of (store_fault env OpFindOne) ;;;
  fun s => (Normal (find_active (users s) u), s).

(** [await d.save()] on a document made by [new User(...)] *)
Definition save_new (env : Env) (d : IUser) : M unit :=
  record_call (CallSave (uid d)) ;;;
  (if validate_user d then ret tt else throw validation_error) ;;;
  fault_of (store_fault env OpSave) ;;;
  fun s =>
    match insert_user (users s) d with
    | inl e => (Abrupt e, s)
    | inr c => set_users c s
    end.

(** [await d.updateLastLogin()]: [this.lastLoginAt = new Date(); return
    this.save()].  The in-memory document carries the new date whether or
    not the save goes through; it is the value handed on.  [save()]
    validates the fetched document against the schema before the update. *)
Definition updateLastLogin (env : Env) (d : IUser) : M IUser :=
  let d' := set_lastLoginAt d (now env) in
  record_call (CallSave (uid d')) ;;;
  (if validate_user d' then ret tt else throw validation_error) ;;;
  fault_of (store_fault env OpSave) ;;;
  (fun s => set_users (update_lastLoginAt (users s) (uid d') (now env)) s) ;;;
  ret d'.

(** The [catch] block of [authenticateFirebaseUser], the same text in the
    API and in the functions package: the error is classified by its
    message. *)
Definition classify_error (rt : Js.Runtime) (e : Js.Thrown) : M unit :=
  match e with
  | Js.ErrorObj _ msg _ =>
      let errorMessage := Js.toLowerCase rt msg in
      if Js.includes errorMessage "expired"
      then respond 401 "TOKEN_EXPIRED" "ID token has expired"
      else if Js.includes errorMessage "invalid"
      then respond 401 "INVALID_TOKEN" "Invalid ID token provided"
      else respond 401 "AUTHENTICATION_FAILED" "Failed to authenticate user"
  | Js.NotAnError _ =>
      respond 401 "AUTHENTICATION_FAILED" "Failed to authenticate user"
  end.

(* ================================================================== *)
(** ** The Express middleware ([middleware/auth.ts] of the API) *)

Module ExpressApi.

Definition fallback_secret : string := "fallback-secret-key-change-in-production".

(** The object built on the local path for compatibility with the
    provider's claims. *)
Definition mockFirebaseToken (decoded : AccessTokenPayload) (mongoUser : IUser)
    : DecodedIdToken :=
  {| id_uid := at_uid decoded;
     id_email := Some (at_email decoded);
     id_name := displayName mongoUser;
     id_picture := photoURL mongoUser;
     id_aud := "";
     id_auth_time := 0;
     id_exp := at_exp decoded;
     id_iat := at_iat decoded;
     id_iss := "";
     id_sub := at_uid decoded;
     id_sign_in_provider := "custom" |}.

(** The body of the inner [try]: the token read as a local access token.
    When the payload is of another type the block ends without a response
    and without [next()]. *)
Definition local_path (env : Env) (token : string) : M unit :=
  let secret := Js.or_else (JWT_SECRET env) fallback_secret in
  decoded <- jwt_verify_call env token secret ;;
  if String.eqb (at_type decoded) "access_token" then
    mongoUser <- findOne env (at_uid decoded) ;;
    match mongoUser with
    | None => respond 401 "USER_NOT_FOUND" "User not found or inactive"
    | Some u =>
        set_req_user (mockFirebaseToken decoded u) ;;;
        set_req_mongoUser u ;;;
        next
    end
  else ret tt.

(** Find or create the Account of verified claims; shared text of the
    external path of [authenticateToken] and of [authenticateFirebaseUser]. *)
Definition find_or_create (env : Env) (decodedToken : DecodedIdToken) : M IUser :=
  found <- findOne env (id_uid decodedToken) ;;
  match found with
  | None =>
      let mongoUser :=
        User_new (runtime env) (id_uid decodedToken) (id_email decodedToken)
          (id_name decodedToken) (id_picture decodedToken) USER true (now env) in
      save_new env mongoUser ;;;
      ret mongoUser
  | Some mongoUser => updateLastLogin env mongoUser
  end.

(** The body of the [try] inside [catch (jwtError)]: the token read as an
    identity token of the provider. *)
Definition external_path (env : Env) (token : string) : M unit :=
  decodedToken <- verifyIdToken_call env token ;;
  mongoUser <- find_or_create env decodedToken ;;
  set_req_user decodedToken ;;;
  set_req_mongoUser mongoUser ;;;
  next.

Definition authenticateToken (env : Env) (req : Request) : M unit :=
  try_catch
    (match authorization req with
     | None =>
         respond 401 "UNAUTHORIZED" "Authorization header with Bearer token is required"
     | Some authHeader =>
         if (negb (Js.truthy (Some authHeader))
             || negb (Js.startsWith authHeader "Bearer "))%bool
         then
           respond 401 "UNAUTHORIZED" "Authorization header with Bearer token is required"
         else
           let token := nth_error (Js.split authHeader "Bearer ") 1 in
           match token with
           | Some tk =>
               if negb (Js.truthy token)
               then respond 401 "INVALID_TOKEN" "Token is required in Authorization header"
               else
                 try_catch (local_path env tk)
                   (fun jwtError =>
                      try_catch (external_path env tk)
                        (fun firebaseError =>
                           respond 401 "INVALID_TOKEN" "Invalid or expired token"))
           | None =>
               respond 401 "INVALID_TOKEN" "Token is required in Authorization header"
           end
     end)
    (fun error =>
       respond 401 "AUTHENTICATION_FAILED" "Failed to authenticate user").

(** The legacy middleware of the API, for identity tokens only. *)
Definition authenticateFirebaseUser (env : Env) (req : Request) : M unit :=
  try_catch
    (match authorization req with
     | None =>
         respond 401 "UNAUTHORIZED" "Authorization header with Bearer token is required"
     | Some authHeader =>
         if (negb (Js.truthy (Some authHeader))
             || negb (Js.startsWith authHeader "Bearer "))%bool
         then
           respond 401 "UNAUTHORIZED" "Authorization header with Bearer token is required"
         else
           let idToken := nth_error (Js.split authHeader "Bearer ") 1 in
           match idToken with
           | Some tk =>
               if negb (Js.truthy idToken)
               then respond 401 "INVALID_TOKEN" "ID token is required in Authorization header"
               else
                 decodedToken <- verifyIdToken_call env tk ;;
                 mongoUser <- find_or_create env decodedToken ;;
                 set_req_user decodedToken ;;;
                 set_req_mongoUser mongoUser ;;;
                 next
           | None =>
               respond 401 "INVALID_TOKEN" "ID token is required in Authorization header"
           end
     end)
    (classify_error (runtime env)).

(** The admin gate. *)
Definition requireAdmin : M unit :=
  try_catch
    (fun s =>
       match req_mongoUser s with
       | None => respond 401 "UNAUTHORIZED" "User authentication required" s
       | Some u =>
           if negb (isAdmin u)
           then respond 403 "FORBIDDEN" "Admin access required" s
           else next s
       end)
    (fun error => respond 500 "AUTHORIZATION_ERROR" "Failed to check user permissions").

(** The active-account gate. *)
Definition requireActiveUser : M unit :=
  try_catch
    (fun s =>
       match req_mongoUser s with
       | None => respond 401 "UNAUTHORIZED" "User authentication required" s
       | Some u =>
           if negb (isActive u)
           then respond 403 "ACCOUNT_DISABLED" "User account is disabled" s
           else next s
       end)
    (fun error => respond 500 "AUTHORIZATION_ERROR" "Failed to check user status").

End ExpressApi.

(* ================================================================== *)
(** ** The Cloud Functions middleware ([middleware/auth.ts] of the
       functions package) *)

Module FunctionsApi.

Definition authenticateFirebaseUser (env : Env) (req : Request) : M unit :=
  try_catch
    (match authorization req with
     | None =>
         respond 401 "UNAUTHORIZED" "Authorization header with Bearer token is required"
     | Some authHeader =>
         if (negb (Js.truthy (Some authHeader))
             || negb (Js.startsWith authHeader "Bearer "))%bool
         then
           respond 401 "UNAUTHORIZED" "Authorization header with Bearer token is required"
         else
           let idToken := nth_error (Js.split authHeader "Bearer ") 1 in
           match idToken with
           | Some tk =>
               if negb (Js.truthy idToken)
               then respond 401 "INVALID_TOKEN" "ID token is required in Authorization header"
               else
                 decodedToken <- verifyIdToken_call env tk ;;
                 set_req_user decodedToken ;;;
                 next
           | None =>
               respond 401 "INVALID_TOKEN" "ID token is required in Authorization header"
           end
     end)
    (classify_error (runtime env)).

End FunctionsApi.

(* ================================================================== *)
(** ** Vocabulary of the statements *)

(** The credential a header carries for the middleware: the second piece
    of [authHeader.split('Bearer ')], when the header starts with the prefix
    and that piece is not empty. *)
Definition credential (req : Request) : option string :=
  match authorization req with
  | Some h =>
      if Js.startsWith h "Bearer " then
        match nth_error (Js.split h "Bearer ") 1 with
        | Some t => if String.eqb t "" then None else Some t
        | None => None
        end
      else None
  | None => None
  end.

(** The secret [authenticateToken] verifies local tokens with. *)
Definition secret_of (env : Env) : string :=
  Js.or_else (JWT_SECRET env) ExpressApi.fallback_secret.

Definition response (st : Z) (e m : string) : ErrorResponse :=
  {| status := st; error := e; message := m |}.

(** A run and the state it ends in. *)
Definition exec {A} (m : M A) (s : State) : State := snd (m s).

(** The store is reachable during a run. *)
Definition store_up (env : Env) : Prop :=
  forall op, store_fault env op = None.

(** Subject ids are unique in a collection. *)
Definition uid_unique (c : Collection) : Prop :=
  NoDup (map uid c).

(* ================================================================== *)
(** ** Sample surroundings, for the concrete runs *)

Definition jwt_malformed : Js.Thrown :=
  Js.ErrorObj "JsonWebTokenError" "jwt malformed" None.

Definition sample_payload (ty : string) : AccessTokenPayload :=
  {| at_uid := "user123"; at_email := "test@example.com"; at_role := "user";
     at_iat := 1700000000; at_exp := 1700003600; at_type := ty |}.

Definition sample_claims (u : string) (e n p : option string) : DecodedIdToken :=
  {| id_uid := u; id_email := e; id_name := n; id_picture := p;
     id_aud := "demo-project"; id_auth_time := 1700000000;
     id_exp := 1700003600; id_iat := 1700000000;
     id_iss := "https://securetoken.google.com/demo-project";
     id_sub := u; id_sign_in_provider := "password" |}.

Definition sample_user (u e n : string) (a : bool) : IUser :=
  {| uid := u; email := Some e; displayName := Some n; photoURL := None;
     role := USER; isActive := a; profile := emptyProfile;
     lastLoginAt := Some 1600000000 |}.

(** Local verification yields a payload of type [ty]; the provider rejects
    every token. *)
Definition env_local (ty : string) : Env :=
  {| runtime := Js.ascii_runtime;
     JWT_SECRET := None;
     jwt_verify := fun _ _ => inr (sample_payload ty);
     verifyIdToken := fun _ =>
       inl (Js.ErrorObj "FirebaseAuthError" "Firebase verification failed" None);
     now := 1700000100;
     store_fault := fun _ => None |}.

(** Local verification fails; the provider answers [r]; the store
    operations fail as [f] says. *)
Definition env_external (r : Js.Thrown + DecodedIdToken)
    (f : StoreOp -> option Js.Thrown) (t : Z) : Env :=
  {| runtime := Js.ascii_runtime;
     JWT_SECRET := Some "s3cret";
     jwt_verify := fun _ _ => inl jwt_malformed;
     verifyIdToken := fun _ => r;
     now := t;
     store_fault := f |}.

Definition no_fault : StoreOp -> option Js.Thrown := fun _ => None.


Definition bearer (tk : string) : Request :=
  {| authorization := Some ("Bearer " ++ tk) |}.

Definition expired_error : Js.Thrown :=
  Js.ErrorObj "FirebaseAuthError"
    "Firebase ID token has expired. Get a fresh ID token and try again." None.

Definition invalid_error : Js.Thrown :=
  Js.ErrorObj "FirebaseAuthError" "Decoding Firebase ID token failed: invalid token" None.

Definition network_error : Js.Thrown :=
  Js.ErrorObj "MongoNetworkError" "connection timed out" None.

Definition fault_on (op : StoreOp) (e : Js.Thrown) : StoreOp -> option Js.Thrown :=
  fun o =>
    match op, o with
    | OpFindOne, OpFindOne | OpSave, OpSave => Some e
    | _, _ => None
    end.



(* ================================================================== *)
(** ** Routers ([routes/users.ts], [routes/admin.ts]) *)

(** [router.use(m1); router.use(m2)]: what [m1] calls as [next()] is the
    rest of the stack, so [m2] runs when, and only when, [m1] called it. *)
Definition use_then (m1 m2 : M unit) : M unit :=
  fun s =>
    match m1 s with
    | (Normal _, s1) =>
        if Nat.ltb (next_calls s) (next_calls s1) then m2 s1 else (Normal tt, s1)
    | (Abrupt e, s1) => (Abrupt e, s1)
    end.

(** The stack in front of every route of the users router. *)
Definition users_router (env : Env) (req : Request) : M unit :=
  use_then (ExpressApi.authenticateToken env req) ExpressApi.requireActiveUser.

(** The stack in front of every route of the admin router. *)
Definition admin_router (env : Env) (req : Request) : M unit :=
  use_then (ExpressApi.authenticateToken env req)
    (use_then ExpressApi.requireActiveUser ExpressApi.requireAdmin).

(** Two documents that differ at most by their login date. *)
Definition same_but_login (a b : IUser) : Prop :=
  uid a = uid b /\ email a = email b /\ displayName a = displayName b /\
  photoURL a = photoURL b /\ role a = role b /\ isActive a = isActive b /\
  profile a = profile b.

(* ================================================================== *)
(** ** The global error handler ([middleware/errorHandler.ts]) *)

(** An error as the handler reads it: [name], [message], the optional
    [statusCode] and [code], and, for a Mongoose validation error, the
    messages of the values of [errors]. *)
Record AppError : Type := {
  err_name : string;
  err_message : string;
  err_statusCode : option Z;
  err_code : option Z;
  err_errors : option (list string)
}.

(** The two fields of the local [error] the handler ends up reading. *)
Record HandledError : Type := {
  statusCode : option Z;
  handled_message : string
}.

(** [new CustomError(message, statusCode)] *)
Definition CustomError (m : string) (st : Z) : HandledError :=
  {| statusCode := Some st; handled_message := m |}.

(** [n || 500] on a possibly undefined number *)
Definition status_or_500 (n : option Z) : Z :=
  match n with
  | Some k => if Z.eqb k 0 then 500 else k
  | None => 500
  end.

Definition opt_Z_eqb (a : option Z) (b : Z) : bool :=
  match a with
  | Some k => Z.eqb k b
  | None => false
  end.

(** [errorHandler(err, req, res, next)]: the response it sends for [err],
    with [process.env.NODE_ENV] as first argument.  The rules are tried in
    the order of the text and each one that applies replaces [error], so the
    last that applies stands.  [Object.values(err.errors)] throws when a
    validation error has no [errors]. *)
Definition errorHandler (node_env : option string) (err : AppError)
    : Js.Thrown + ErrorResponse :=
  let error0 :=
    {| statusCode := err_statusCode err; handled_message := err_message err |} in
  let error1 :=
    if String.eqb (err_name err) "CastError"
    then CustomError "Resource not found" 404 else error0 in
  let error2 :=
    if (String.eqb (err_name err) "MongoServerError"
        && opt_Z_eqb (err_code err) 11000)%bool
    then CustomError "Duplicate field value entered" 400 else error1 in
  let error3 :=
    if String.eqb (err_name err) "ValidationError"
    then match err_errors err with
         | Some msgs => inr (CustomError (String.concat ", " msgs) 400)
         | None =>
             inl (Js.ErrorObj "TypeError"
                    "Cannot convert undefined or null to object" None)
         end
    else inr error2 in
  match error3 with
  | inl e => inl e
  | inr error3 =>
      let error4 :=
        if Js.includes (err_message err) "Firebase"
        then CustomError "Authentication failed" 401 else error3 in
      let error5 :=
        if (String.eqb (err_name err) "SyntaxError"
            && Js.includes (err_message err) "JSON")%bool
        then CustomError "Invalid JSON format" 400 else error4 in
      let code := status_or_500 (statusCode error5) in
      let msg := Js.or_else (Some (handled_message error5)) "Internal Server Error" in
      inr {| status := code;
             error := if Z.eqb code 500 then "INTERNAL_SERVER_ERROR" else "REQUEST_ERROR";
             message :=
               if (opt_string_eqb node_env (Some "production") && Z.eqb code 500)%bool
               then "Something went wrong" else msg |}
  end.

(** [notFoundHandler(req, res)], with [req.originalUrl] as argument *)
Definition notFoundHandler (originalUrl : string) : ErrorResponse :=
  {| status := 404; error := "NOT_FOUND";
     message := "Route " ++ originalUrl ++ " not found" |}.

(* ================================================================== *)
(** ** The company access code ([authenticateCompanyAccessCode]) *)

(** A Firestore timestamp, and the instant in milliseconds its [toDate()]
    denotes: [seconds * 1000 + Math.round(nanoseconds / 1e6)], the
    nanoseconds rounded to the nearest millisecond, a half upwards. *)
Record Timestamp : Type := { seconds : Z; nanoseconds : Z }.

Definition toDate (t : Timestamp) : Z :=
  seconds t * 1000 + (nanoseconds t + 500000) / 1000000.

(** A document of the collection 'companies'. *)
Record CompanyDocument : Type := {
  cd_name : string;
  cd_accessCode : string;
  cd_createdAt : Timestamp;
  cd_updatedAt : Timestamp;
  cd_isActive : bool
}.

(** The [Company] attached to the request. *)
Record Company : Type := {
  co_id : string;
  co_name : string;
  co_accessCode : string;
  co_createdAt : Z;
  co_updatedAt : Z;
  co_isActive : bool
}.

(** The collection, each document with its id. *)
Definition Companies : Type := list (string * CompanyDocument).

(** [.where('accessCode', '==', code).where('isActive', '==', true).limit(1)] *)
Definition company_query (cs : Companies) (code : string) : Companies :=
  firstn 1
    (filter (fun x => (String.eqb (cd_accessCode (snd x)) code && cd_isActive (snd x))%bool)
       cs).

Definition company_of (x : string * CompanyDocument) : Company :=
  {| co_id := fst x;
     co_name := cd_name (snd x);
     co_accessCode := cd_accessCode (snd x);
     co_createdAt := toDate (cd_createdAt (snd x));
     co_updatedAt := toDate (cd_updatedAt (snd x));
     co_isActive := cd_isActive (snd x) |}.

(** What a run of the middleware leaves: the access codes it asked the
    store about, [req.company], the responses sent, the calls of [next()]. *)
Record CompanyRun : Type := {
  queried : list string;
  req_company : option Company;
  company_sent : list ErrorResponse;
  company_next : nat
}.

(** [authenticateCompanyAccessCode], on the header [x-access-code], the
    collection, and the fault of the store if it has one (then [get()]
    rejects and the [catch] answers). *)
Definition authenticateCompanyAccessCode (fault : option Js.Thrown)
    (cs : Companies) (accessCode : option string) : CompanyRun :=
  match accessCode with
  | Some code =>
      if negb (Js.truthy accessCode)
      then {| queried := []; req_company := None;
              company_sent :=
                [response 401 "MISSING_ACCESS_CODE" "x-access-code header is required"];
              company_next := 0 |}
      else
        match fault with
        | Some _ =>
            {| queried := [code]; req_company := None;
               company_sent :=
                 [response 500 "AUTHENTICATION_ERROR"
                    "Failed to authenticate company access code"];
               company_next := 0 |}
        | None =>
            match company_query cs code with
            | [] =>
                {| queried := [code]; req_company := None;
                   company_sent :=
                     [response 401 "INVALID_ACCESS_CODE" "Invalid or inactive access code"];
                   company_next := 0 |}
            | companyDoc :: _ =>
                {| queried := [code]; req_company := Some (company_of companyDoc);
                   company_sent := []; company_next := 1 |}
            end
        end
  | None =>
      {| queried := []; req_company := None;
         company_sent :=
           [response 401 "MISSING_ACCESS_CODE" "x-access-code header is required"];
         company_next := 0 |}
  end.

(* ================================================================== *)
(** ** The routes of [routes/auth.ts]: [/login] and [/token] *)

(** The body of a request with an [idToken], as the handler sees it: the
    messages [validationResult(req)] holds, and the token. *)
Record IdTokenRequest : Type := {
  validation_errors : list string;
  idToken : string
}.

Definition is_nil {A} (l : list A) : bool :=
  match l with
  | [] => true
  | _ :: _ => false
  end.

(** [a || b] on two possibly undefined strings *)
Definition or_opt (a b : option string) : option string :=
  if Js.truthy a then a else b.

(** The query [{ uid: u }], with no condition on [isActive] *)
Definition find_by_uid (c : Collection) (u : string) : option IUser :=
  find (fun d => String.eqb (uid d) u) c.

(** [await User.findOne({ uid: u })] *)
Definition findOne_any (env : Env) (u : string) : M (option IUser) :=
  record_call (CallFindOne u) ;;;
  fault_of (store_fault env OpFindOne) ;;;
  fun s => (Normal (find_by_uid (users s) u), s).

(** The stored document [x] with the paths [/login] assigns taken from
    [d]. *)
Definition sync_fields (x d : IUser) : IUser :=
  {| uid := uid x; email := email d; displayName := displayName d;
     photoURL := photoURL d; role := role x; isActive := isActive x;
     profile := profile x; lastLoginAt := lastLoginAt d |}.

(** [await user.save()] on a fetched document whose [lastLoginAt], [email],
    [displayName] and [photoURL] were assigned: validation, then the update,
    which the unique index on [email] rejects when another Account holds the
    new email. *)
Definition save_synced (env : Env) (d : IUser) : M unit :=
  record_call (CallSave (uid d)) ;;;
  (if validate_user d then ret tt else throw validation_error) ;;;
  fault_of (store_fault env OpSave) ;;;
  fun s =>
    if existsb (fun x => (negb (String.eqb (uid x) (uid d))
                          && opt_string_eqb (email x) (email d))%bool) (users s)
    then (Abrupt (duplicate_key_error "email"), s)
    else set_users
           (map (fun x => if String.eqb (uid x) (uid d) then sync_fields x d else x)
              (users s)) s.

(** What [/login] answers with status 200. *)
Record LoginData : Type := {
  login_user : IUser;
  isNewUser : bool
}.

(** The [catch] block of [/login] and [/token], up to the last answer
    ([fallback] is its error kind, [text] its message). *)
Definition route_catch (rt : Js.Runtime) (fallback text : string)
    (e : Js.Thrown) : M unit :=
  match e with
  | Js.ErrorObj _ msg _ =>
      let errorMessage := Js.toLowerCase rt msg in
      if Js.includes errorMessage "expired"
      then respond 401 "TOKEN_EXPIRED" "ID token has expired"
      else if Js.includes errorMessage "invalid"
      then respond 401 "INVALID_TOKEN" "Invalid ID token provided"
      else respond 500 fallback text
  | Js.NotAnError _ => respond 500 fallback text
  end.

(** [POST /login].  The value of the computation is the body of the 200
    response when one is sent, [None] when an error response is sent. *)
Definition login (env : Env) (body : IdTokenRequest) : M (option LoginData) :=
  try_catch
    (if negb (is_nil (validation_errors body))
     then
       respond 400 "VALIDATION_ERROR"
         ("Invalid request data: " ++ String.concat ", " (validation_errors body)) ;;;
       ret None
     else
       decodedToken <- verifyIdToken_call env (idToken body) ;;
       found <- findOne_any env (id_uid decodedToken) ;;
       match found with
       | None =>
           let user :=
             User_new (runtime env) (id_uid decodedToken) (id_email decodedToken)
               (id_name decodedToken) (id_picture decodedToken) USER true (now env) in
           save_new env user ;;;
           ret (Some {| login_user := user; isNewUser := true |})
       | Some user =>
           let user' :=
             {| uid := uid user;
                email := option_map (Js.toLowerCase (runtime env))
                           (or_opt (id_email decodedToken) (email user));
                displayName := option_map (Js.trim (runtime env))
                                 (or_opt (id_name decodedToken) (displayName user));
                photoURL := or_opt (id_picture decodedToken) (photoURL user);
                role := role user;
                isActive := isActive user;
                profile := profile user;
                lastLoginAt := Some (now env) |} in
           save_synced env user' ;;;
           ret (Some {| login_user := user'; isNewUser := false |})
       end)
    (fun error =>
       route_catch (runtime env) "LOGIN_FAILED" "Failed to process login request" error ;;;
       ret None).

(** What [jwt.sign] is given by [/token]. *)
Record SignPayload : Type := {
  sp_uid : string;
  sp_email : string;
  sp_role : string;
  sp_type : string
}.

(** What [/token] answers with status 200. *)
Record TokenData : Type := {
  accessToken : string;
  expiresIn : Z;
  tokenType : string
}.

(** The string value of a [UserRole]. *)
Definition role_name (r : UserRole) : string :=
  match r with
  | USER => "user"
  | ADMIN => "admin"
  end.

(** [POST /token], with [jwt.sign(payload, secret, { expiresIn, algorithm:
    'HS256' })] as first argument.  The value of the computation is the body
    of the 200 response when one is sent. *)
Definition token_exchange (sign : SignPayload -> string -> Z -> string)
    (env : Env) (body : IdTokenRequest) : M (option TokenData) :=
  try_catch
    (if negb (is_nil (validation_errors body))
     then
       respond 400 "VALIDATION_ERROR"
         ("Invalid request data: " ++ String.concat ", " (validation_errors body)) ;;;
       ret None
     else
       decodedToken <- verifyIdToken_call env (idToken body) ;;
       mongoUser <- ExpressApi.find_or_create env decodedToken ;;
       if negb (isActive mongoUser)
       then
         respond 401 "ACCOUNT_DISABLED" "User account is disabled" ;;;
         ret None
       else
         let JWT_SECRET := Js.or_else (JWT_SECRET env) ExpressApi.fallback_secret in
         let expiresIn := 24 * 60 * 60 in
         let payload :=
           {| sp_uid := id_uid decodedToken;
              sp_email := Js.or_else (id_email decodedToken) "";
              sp_role := role_name (role mongoUser);
              sp_type := "access_token" |} in
         let accessToken := sign payload JWT_SECRET expiresIn in
         ret (Some {| accessToken := accessToken; expiresIn := expiresIn;
                      tokenType := "Bearer" |}))
    (fun error =>
       route_catch (runtime env) "TOKEN_EXCHANGE_FAILED"
         "Failed to generate access token" error ;;;
       ret None).

(* ================================================================== *)
(** ** The route [PATCH /update] of [routes/users.ts] *)

(** [req.body.profile] *)
Record ProfileUpdate : Type := {
  up_firstName : option string;
  up_lastName : option string;
  up_phone : option string;
  up_address : option string;
  up_dateOfBirth : option string
}.

(** The body of the request, with the messages [validationResult(req)]
    holds. *)
Record UpdateProfileRequest : Type := {
  up_errors : list string;
  up_displayName : option string;
  up_profile : option ProfileUpdate
}.

(** [x !== undefined ? set(x) : old], for a path with the [trim] setter *)
Definition assign_trimmed (rt : Js.Runtime) (v old : option string)
    : option string :=
  match v with
  | Some s => Some (Js.trim rt s)
  | None => old
  end.

(** The assignments of the handler on a document; [parse] is [new
    Date(string)]. *)
Definition apply_update (rt : Js.Runtime) (parse : string -> Z)
    (body : UpdateProfileRequest) (d : IUser) : IUser :=
  {| uid := uid d;
     email := email d;
     displayName := assign_trimmed rt (up_displayName body) (displayName d);
     photoURL := photoURL d;
     role := role d;
     isActive := isActive d;
     profile :=
       match up_profile body with
       | Some p =>
           {| firstName := assign_trimmed rt (up_firstName p) (firstName (profile d));
              lastName := assign_trimmed rt (up_lastName p) (lastName (profile d));
              phone := assign_trimmed rt (up_phone p) (phone (profile d));
              address := assign_trimmed rt (up_address p) (address (profile d));
              dateOfBirth :=
                match up_dateOfBirth p with
                | Some s => Some (parse s)
                | None => dateOfBirth (profile d)
                end |}
       | None => profile d
       end;
     lastLoginAt := lastLoginAt d |}.

(** [await authReq.mongoUser.save()] after those assignments, [d] being
    the document before them: the document is validated against the schema,
    then the paths assigned are set on the stored document of the same
    subject. *)
Definition save_profile (parse : string -> Z) (env : Env)
    (body : UpdateProfileRequest) (d : IUser) : M unit :=
  record_call (CallSave (uid d)) ;;;
  (if validate_user (apply_update (runtime env) parse body d)
   then ret tt else throw validation_error) ;;;
  fault_of (store_fault env OpSave) ;;;
  fun s =>
    set_users
      (map (fun x => if String.eqb (uid x) (uid d)
                     then apply_update (runtime env) parse body x else x)
         (users s)) s.

(** [PATCH /update].  The value of the computation is the user of the 200
    response when one is sent.  Without [req.mongoUser] the first access to
    it throws, inside the [try]. *)
Definition update_profile (parse : string -> Z) (env : Env)
    (body : UpdateProfileRequest) : M (option IUser) :=
  try_catch
    (if negb (is_nil (up_errors body))
     then
       respond 400 "VALIDATION_ERROR"
         ("Invalid request data: " ++ String.concat ", " (up_errors body)) ;;;
       ret None
     else
       fun s =>
         match req_mongoUser s with
         | None =>
             (Abrupt (Js.ErrorObj "TypeError"
                        "Cannot read properties of undefined" None), s)
         | Some mongoUser =>
             (set_req_mongoUser (apply_update (runtime env) parse body mongoUser) ;;;
              save_profile parse env body mongoUser ;;;
              ret (Some (apply_update (runtime env) parse body mongoUser))) s
         end)
    (fun error =>
       respond 500 "PROFILE_UPDATE_FAILED" "Failed to update user profile" ;;;
       ret None).

(** What [PATCH /update] may not touch on an Account. *)
Definition same_identity (a b : IUser) : Prop :=
  uid a = uid b /\ email a = email b /\ role a = role b /\
  isActive a = isActive b /\ photoURL a = photoURL b /\
  lastLoginAt a = lastLoginAt b.

(** [b] is [a] unless [a] is the Account of subject [u]. *)
Definition same_unless (u : option string) (a b : IUser) : Prop :=
  a = b \/ u = Some (uid a).

(** The kinds of error [authenticateToken] answers with. *)
Definition authenticateToken_kinds : list string :=
  ["UNAUTHORIZED"; "INVALID_TOKEN"; "USER_NOT_FOUND"].

(* ================================================================== *)
(** ** Header parsing *)

Lemma prefix_nonempty (p s : string) :
  p <> EmptyString -> String.prefix p s = true -> String.eqb s EmptyString = false.
Proof.
  intros Hp H. destruct s as [|a s]; [|reflexivity].
  destruct p; [congruence | discriminate H].
Qed.

Lemma split_skip (sep x r cur : string) :
  Js.split_from sep (String.length x) cur (x ++ r) = Js.split_from sep 0 cur r.
Proof.
  induction x as [|a x IH]; simpl.
  - destruct r; reflexivity.
  - exact IH.
Qed.

Lemma prefix_app (p r : string) : String.prefix p (p ++ r) = true.
Proof.
  induction p as [|a p IH]; simpl.
  - destruct r; reflexivity.
  - destruct (Ascii.ascii_dec a a); [exact IH | congruence].
Qed.

(** Cutting a text that starts with the separator yields the piece read so
    far, then the pieces of what follows the separator. *)
Lemma split_from_sep (a : ascii) (sep r cur : string) :
  Js.split_from (String a sep) 0 cur (String a sep ++ r)
  = cur :: Js.split_from (String a sep) 0 EmptyString r.
Proof.
  change (String a sep ++ r) with (String a (sep ++ r)).
  cbn [Js.split_from].
  change (String a (sep ++ r)) with (String a sep ++ r).
  rewrite prefix_app.
  replace (String.length (String a sep) - 1)%nat with (String.length sep)
    by (cbn [String.length]; lia).
  now rewrite split_skip.
Qed.

(** With a credential, [authenticateToken] is the nest of its three
    [try] blocks run on that credential. *)
Lemma authenticateToken_credential env req tk s :
  credential req = Some tk ->
  ExpressApi.authenticateToken env req s =
  try_catch
    (try_catch (ExpressApi.local_path env tk)
       (fun _ =>
          try_catch (ExpressApi.external_path env tk)
            (fun _ => respond 401 "INVALID_TOKEN" "Invalid or expired token")))
    (fun _ => respond 401 "AUTHENTICATION_FAILED" "Failed to authenticate user") s.
Proof.
  unfold credential, ExpressApi.authenticateToken.
  destruct (authorization req) as [h|]; [|discriminate].
  destruct (Js.startsWith h "Bearer ") eqn:Hp; [|discriminate].
  unfold Js.truthy at 1.
  rewrite (@prefix_nonempty "Bearer " h); [|discriminate|exact Hp].
  cbn [negb orb].
  destruct (nth_error (Js.split h "Bearer ") 1) as [t|]; [|discriminate].
  cbn [Js.truthy].
  destruct (String.eqb t "") eqn:Ht; [discriminate|].
  intros [= ->]. reflexivity.
Qed.

(** Without one, it answers 401 and calls no collaborator. *)
Lemma authenticateToken_no_credential env req s :
  credential req = None ->
  exists e m,
    (e = "UNAUTHORIZED" \/ e = "INVALID_TOKEN") /\
    ExpressApi.authenticateToken env req s = respond 401 e m s.
Proof.
  unfold credential, ExpressApi.authenticateToken.
  destruct (authorization req) as [h|].
  2:{ intros _. eexists _, _. split; [left; reflexivity | reflexivity]. }
  destruct (Js.startsWith h "Bearer ") eqn:Hp.
  2:{ intros _. rewrite orb_true_r.
      eexists _, _. split; [left; reflexivity | reflexivity]. }
  unfold Js.truthy at 1.
  rewrite (@prefix_nonempty "Bearer " h); [|discriminate|exact Hp].
  cbn [negb orb].
  destruct (nth_error (Js.split h "Bearer ") 1) as [t|].
  2:{ intros _. eexists _, _. split; [right; reflexivity | reflexivity]. }
  cbn [Js.truthy].
  destruct (String.eqb t "") eqn:Ht; [|discriminate].
  intros _. eexists _, _. split; [right; reflexivity | reflexivity].
Qed.

(** The monadic plumbing, unfolded in one go. *)
Ltac run :=
  cbv beta iota zeta delta
    [ExpressApi.local_path ExpressApi.external_path ExpressApi.find_or_create
     exec bind try_catch ret throw modify record_call set_users set_req_user
     set_req_mongoUser respond next of_result fault_of jwt_verify_call
     verifyIdToken_call findOne save_new updateLastLogin begin_request
     fst snd users calls req_user req_mongoUser sent next_calls response].

(** C9.  A header whose token itself starts with the prefix, such as
    "Bearer Bearer x", is cut into two empty pieces before the rest: the
    credential read is the empty string although the remainder after the
    prefix is not empty, and the run answers 401 INVALID_TOKEN without
    calling any collaborator. *)
Theorem nested_bearer_prefix_is_empty_credential (env : Env) (rest : string) (c : Collection) :
  let tk := "Bearer " ++ rest in
  let r := ExpressApi.authenticateToken env (bearer tk) (begin_request c) in
  tk <> "" /\
  nth_error (Js.split ("Bearer " ++ tk) "Bearer ") 1 = Some "" /\
  fst r = Normal tt /\
  sent (snd r) =
    [response 401 "INVALID_TOKEN" "Token is required in Authorization header"] /\
  calls (snd r) = [] /\
  users (snd r) = c /\
  next_calls (snd r) = 0%nat /\
  req_user (snd r) = None /\ req_mongoUser (snd r) = None.
Proof.
  intros tk r.
  assert (Hs : Js.split ("Bearer " ++ tk) "Bearer "
               = "" :: "" :: Js.split_from "Bearer " 0 "" rest).
  { unfold Js.split, tk.
    change "Bearer " with (String "B" "earer ").
    now rewrite !split_from_sep. }
  split; [discriminate|].
  split; [now rewrite Hs|].
  subst r. unfold ExpressApi.authenticateToken, bearer.
  cbn [authorization]. rewrite Hs.
  unfold Js.startsWith. rewrite prefix_app.
  repeat split.
Qed.

(* ================================================================== *)
(** ** The store *)

Lemma find_active_none (c : Collection) (u : string) :
  (forall d, In d c -> uid d = u -> isActive d = false) ->
  find_active c u = None.
Proof.
  intros H. unfold find_active.
  destruct (find (matches_active u) c) as [d|] eqn:Hf; [|reflexivity].
  apply find_some in Hf. destruct Hf as [Hin Hm].
  unfold matches_active in Hm. apply andb_true_iff in Hm.
  destruct Hm as [Hu Ha]. apply String.eqb_eq in Hu.
  rewrite (H d Hin Hu) in Ha. discriminate.
Qed.

Lemma find_active_some (c : Collection) (u : string) (d : IUser) :
  find_active c u = Some d -> In d c /\ uid d = u /\ isActive d = true.
Proof.
  unfold find_active. intros Hf. apply find_some in Hf.
  destruct Hf as [Hin Hm]. unfold matches_active in Hm.
  apply andb_true_iff in Hm. destruct Hm as [Hu Ha].
  apply String.eqb_eq in Hu. auto.
Qed.

(* ================================================================== *)
(** ** The local path *)




(** C1.  A credential that verifies locally with a payload of another
    type than 'access_token': the run ends after the local verification
    with no response sent, [next()] not called, nothing attached to the
    request, and no call to the provider. *)
Theorem type_mismatch_ends_without_response :
  let r := ExpressApi.authenticateToken (env_local "refresh_token")
             (bearer "valid-jwt-token") (begin_request []) in
  fst r = Normal tt /\
  sent (snd r) = [] /\
  next_calls (snd r) = 0%nat /\
  req_user (snd r) = None /\ req_mongoUser (snd r) = None /\
  calls (snd r) =
    [CallJwtVerify "valid-jwt-token" "fallback-secret-key-change-in-production"].
Proof.
  vm_compute. repeat split.
Qed.

(** The same for every credential, payload and collection. *)
Lemma type_mismatch_in_general
    (env : Env) (req : Request) (c : Collection) (tk : string)
    (decoded : AccessTokenPayload) :
  credential req = Some tk ->
  jwt_verify env tk (secret_of env) = inr decoded ->
  at_type decoded <> "access_token" ->
  ExpressApi.authenticateToken env req (begin_request c) =
  (Normal tt,
   {| users := c; calls := [CallJwtVerify tk (secret_of env)];
      req_user := None; req_mongoUser := None; sent := []; next_calls := 0 |}).
Proof.
  intros Hc Hv Ht.
  rewrite (authenticateToken_credential env req _ Hc).
  unfold secret_of in *. run. rewrite Hv. run.
  apply String.eqb_neq in Ht. rewrite Ht. reflexivity.
Qed.

(* ================================================================== *)
(** ** The external path: failures *)

(** C3, as stated, fails: the provider rejects the token with a message
    that contains "expired", and the run answers INVALID_TOKEN, not
    TOKEN_EXPIRED. *)
Lemma expired_external_token_answer :
  let r := ExpressApi.authenticateToken
             (env_external (inl expired_error) no_fault 1700000100)
             (bearer "expired-token") (begin_request []) in
  match expired_error with
  | Js.ErrorObj _ msg _ => Js.includes msg "expired" = true
  | Js.NotAnError _ => False
  end /\
  sent (snd r) = [response 401 "INVALID_TOKEN" "Invalid or expired token"] /\
  ~ (exists m, In (response 401 "TOKEN_EXPIRED" m) (sent (snd r))).
Proof.
  split; [reflexivity|]. split; [reflexivity|].
  intros [m [H|[]]]. discriminate H.
Qed.

(** C3, amended.  When local verification fails and the provider's call
    throws, whatever the thrown value and its message, the run answers 401
    INVALID_TOKEN, attaches nothing, does not call [next()], and neither
    reads nor changes the collection. *)
Theorem both_verifications_fail
    (env : Env) (req : Request) (c : Collection) (tk : string)
    (jwtError firebaseError : Js.Thrown) :
  credential req = Some tk ->
  jwt_verify env tk (secret_of env) = inl jwtError ->
  verifyIdToken env tk = inl firebaseError ->
  let r := ExpressApi.authenticateToken env req (begin_request c) in
  fst r = Normal tt /\
  sent (snd r) = [response 401 "INVALID_TOKEN" "Invalid or expired token"] /\
  users (snd r) = c /\
  calls (snd r) = [CallJwtVerify tk (secret_of env); CallVerifyIdToken tk] /\
  next_calls (snd r) = 0%nat /\
  req_user (snd r) = None /\ req_mongoUser (snd r) = None.
Proof.
  intros Hc Hv Hf r. subst r.
  rewrite (authenticateToken_credential env req _ Hc).
  unfold secret_of in *. run. rewrite Hv. run. rewrite Hf.
  repeat split.
Qed.

Lemma both_verifications_fail_witness :
  let env := env_external (inl invalid_error) no_fault 1700000100 in
  let r := ExpressApi.authenticateToken env (bearer "invalid-token")
             (begin_request [sample_user "u0" "a@example.com" "A" true]) in
  fst r = Normal tt /\
  sent (snd r) = [response 401 "INVALID_TOKEN" "Invalid or expired token"] /\
  users (snd r) = [sample_user "u0" "a@example.com" "A" true] /\
  calls (snd r) =
    [CallJwtVerify "invalid-token" (secret_of env); CallVerifyIdToken "invalid-token"] /\
  next_calls (snd r) = 0%nat /\
  req_user (snd r) = None /\ req_mongoUser (snd r) = None.
Proof.
  intros env.
  apply (@both_verifications_fail env (bearer "invalid-token") _ "invalid-token"
           jwt_malformed invalid_error).
  - reflexivity.
  - reflexivity.
  - reflexivity.
Defined.

(** C4.  The store is unreachable while the token is a good identity
    token: the lookup (or, for a new subject, the save) rejects with a
    network error, and the run answers INVALID_TOKEN, the answer for a bad
    token; AUTHENTICATION_FAILED is not sent. *)
Theorem store_failure_is_answered_invalid_token :
  let claims := sample_claims "firebase123" (Some "firebase@example.com")
                  (Some "Firebase User") None in
  let r1 := ExpressApi.authenticateToken
              (env_external (inr claims) (fault_on OpFindOne network_error) 1700000100)
              (bearer "valid-firebase-token") (begin_request []) in
  let r2 := ExpressApi.authenticateToken
              (env_external (inr claims) (fault_on OpSave network_error) 1700000100)
              (bearer "valid-firebase-token") (begin_request []) in
  sent (snd r1) = [response 401 "INVALID_TOKEN" "Invalid or expired token"] /\
  sent (snd r2) = [response 401 "INVALID_TOKEN" "Invalid or expired token"] /\
  calls (snd r1) =
    [CallJwtVerify "valid-firebase-token" "s3cret";
     CallVerifyIdToken "valid-firebase-token"; CallFindOne "firebase123"] /\
  calls (snd r2) =
    [CallJwtVerify "valid-firebase-token" "s3cret";
     CallVerifyIdToken "valid-firebase-token"; CallFindOne "firebase123";
     CallSave "firebase123"].
Proof.
  vm_compute. repeat split.
Qed.

(** No run of [authenticateToken] ends by a throw: the outer [catch]
    answers whatever is left. *)
Lemma authenticateToken_completes (env : Env) (req : Request) (s : State) :
  fst (ExpressApi.authenticateToken env req s) = Normal tt.
Proof.
  unfold ExpressApi.authenticateToken, try_catch at 1.
  match goal with |- context [match ?m s with _ => _ end] => destruct (m s) as [[[]|e] s'] end;
    reflexivity.
Qed.

(** With a credential, the nest of the two inner [try] blocks does not
    throw either, so the outer [catch] is never entered: the reason why
    no store failure comes out as AUTHENTICATION_FAILED. *)
Lemma inner_blocks_complete (env : Env) (tk : string) (s : State) :
  fst (try_catch (ExpressApi.local_path env tk)
         (fun _ =>
            try_catch (ExpressApi.external_path env tk)
              (fun _ => respond 401 "INVALID_TOKEN" "Invalid or expired token")) s)
  = Normal tt.
Proof.
  unfold try_catch.
  destruct (ExpressApi.local_path env tk s) as [[[]|e] s1]; [reflexivity|].
  destruct (ExpressApi.external_path env tk s1) as [[[]|e'] s2]; reflexivity.
Qed.

(* ================================================================== *)
(** ** The external path: an existing Account *)

Lemma validate_set_lastLoginAt (d : IUser) (t : Z) :
  validate_user (set_lastLoginAt d t) = validate_user d.
Proof. reflexivity. Qed.

Lemma find_active_update (c : Collection) (u : string) (t : Z) (d : IUser) :
  find_active c u = Some d ->
  find_active (update_lastLoginAt c u t) u = Some (set_lastLoginAt d t).
Proof.
  unfold find_active, update_lastLoginAt.
  induction c as [|x c IH]; [discriminate|].
  cbn [find map]. unfold matches_active at 1 3.
  destruct (String.eqb (uid x) u) eqn:Hu; cbn [set_lastLoginAt uid isActive andb].
  - rewrite Hu. cbn [andb].
    destruct (isActive x); [intros [= ->]; reflexivity | exact IH].
  - rewrite Hu. cbn [andb]. exact IH.
Qed.

(** C5, as stated, fails: an active Account is stored with an email, a
    name and no avatar; the same subject logs in with an identity token
    carrying another email, another name and an avatar, all non-empty; the
    stored email, name and avatar stay as they were, and only the login date
    moves. *)
Lemma existing_account_keeps_stored_claims :
  let stored := sample_user "firebase123" "old@example.com" "Old Name" true in
  let claims := sample_claims "firebase123" (Some "new@example.com")
                  (Some "New Name") (Some "https://example.com/new.jpg") in
  let r := ExpressApi.authenticateToken
             (env_external (inr claims) no_fault 1700000100)
             (bearer "valid-firebase-token") (begin_request [stored]) in
  next_calls (snd r) = 1%nat /\
  users (snd r) = [set_lastLoginAt stored 1700000100] /\
  map email (users (snd r)) = [Some "old@example.com"] /\
  map displayName (users (snd r)) = [Some "Old Name"] /\
  map photoURL (users (snd r)) = [None] /\
  map email (users (snd r)) <> [id_email claims] /\
  map displayName (users (snd r)) <> [id_name claims] /\
  map photoURL (users (snd r)) <> [id_picture claims].
Proof.
  vm_compute. repeat split; discriminate.
Qed.

(** C5, amended.  After a successful external verification for a subject
    that has an active Account which satisfies the schema (its uid and email
    are not empty), with the store reachable, the run sets the login date of
    that Account to now and persists it; the stored email, name and avatar
    are those of before, whatever the claims carry; the document with the
    new date is attached to the request and [next()] is called once. *)
Theorem existing_account_login
    (env : Env) (req : Request) (c : Collection) (tk : string)
    (jwtError : Js.Thrown) (decodedToken : DecodedIdToken) (d : IUser) :
  credential req = Some tk ->
  jwt_verify env tk (secret_of env) = inl jwtError ->
  verifyIdToken env tk = inr decodedToken ->
  store_up env ->
  find_active c (id_uid decodedToken) = Some d ->
  validate_user d = true ->
  let r := ExpressApi.authenticateToken env req (begin_request c) in
  let d' := set_lastLoginAt d (now env) in
  fst r = Normal tt /\
  users (snd r) = update_lastLoginAt c (id_uid decodedToken) (now env) /\
  find_active (users (snd r)) (id_uid decodedToken) = Some d' /\
  email d' = email d /\ displayName d' = displayName d /\
  photoURL d' = photoURL d /\ lastLoginAt d' = Some (now env) /\
  req_mongoUser (snd r) = Some d' /\
  req_user (snd r) = Some decodedToken /\
  next_calls (snd r) = 1%nat /\ sent (snd r) = [] /\
  calls (snd r) =
    [CallJwtVerify tk (secret_of env); CallVerifyIdToken tk;
     CallFindOne (id_uid decodedToken); CallSave (id_uid decodedToken)].
Proof.
  intros Hc Hv Hf Hup Hd Hval r d'. subst r.
  rewrite (authenticateToken_credential env req _ Hc).
  destruct (@find_active_some _ _ _ Hd) as [_ [Hu _]].
  pose proof (@find_active_update c (id_uid decodedToken) (now env) d Hd) as Hp.
  unfold secret_of in *. run. rewrite Hv. run. rewrite Hf. run.
  rewrite (Hup OpFindOne). run. rewrite Hd. run.
  rewrite validate_set_lastLoginAt, Hval. run.
  rewrite (Hup OpSave). run.
  cbn [set_lastLoginAt uid]. rewrite Hu.
  repeat split. exact Hp.
Qed.

(** The same login when the stored document fails the schema: the save
    is rejected by the validation and the run answers INVALID_TOKEN. *)
Lemma existing_account_failing_schema
    (env : Env) (req : Request) (c : Collection) (tk : string)
    (jwtError : Js.Thrown) (decodedToken : DecodedIdToken) (d : IUser) :
  credential req = Some tk ->
  jwt_verify env tk (secret_of env) = inl jwtError ->
  verifyIdToken env tk = inr decodedToken ->
  store_fault env OpFindOne = None ->
  find_active c (id_uid decodedToken) = Some d ->
  validate_user d = false ->
  let r := ExpressApi.authenticateToken env req (begin_request c) in
  sent (snd r) = [response 401 "INVALID_TOKEN" "Invalid or expired token"] /\
  users (snd r) = c /\ next_calls (snd r) = 0%nat.
Proof.
  intros Hc Hv Hf Hup Hd Hval r. subst r.
  rewrite (authenticateToken_credential env req _ Hc).
  unfold secret_of in *. run. rewrite Hv. run. rewrite Hf. run.
  rewrite Hup. run. rewrite Hd. run.
  rewrite validate_set_lastLoginAt, Hval. repeat split.
Qed.

Lemma existing_account_login_witness :
  let stored := sample_user "firebase123" "old@example.com" "Old Name" true in
  let claims := sample_claims "firebase123" (Some "new@example.com") None None in
  let env := env_external (inr claims) no_fault 1700000100 in
  let r := ExpressApi.authenticateToken env (bearer "valid-firebase-token")
             (begin_request [stored]) in
  let d' := set_lastLoginAt stored (now env) in
  fst r = Normal tt /\
  users (snd r) = update_lastLoginAt [stored] (id_uid claims) (now env) /\
  find_active (users (snd r)) (id_uid claims) = Some d' /\
  email d' = email stored /\ displayName d' = displayName stored /\
  photoURL d' = photoURL stored /\ lastLoginAt d' = Some (now env) /\
  req_mongoUser (snd r) = Some d' /\
  req_user (snd r) = Some claims /\
  next_calls (snd r) = 1%nat /\ sent (snd r) = [] /\
  calls (snd r) =
    [CallJwtVerify "valid-firebase-token" (secret_of env);
     CallVerifyIdToken "valid-firebase-token";
     CallFindOne (id_uid claims); CallSave (id_uid claims)].
Proof.
  intros stored claims env.
  apply (@existing_account_login env (bearer "valid-firebase-token") [stored]
           "valid-firebase-token" jwt_malformed claims stored).
  - reflexivity.
  - reflexivity.
  - reflexivity.
  - intros []; reflexivity.
  - reflexivity.
  - reflexivity.
Defined.

(* ================================================================== *)
(** ** The external path: a new Account *)





Lemma count_uid_zero (c : Collection) (u : string) :
  count_uid c u = 0%nat -> forall x, In x c -> String.eqb (uid x) u = false.
Proof.
  unfold count_uid. intros H x Hin.
  destruct (String.eqb (uid x) u) eqn:E; [|reflexivity].
  assert (Hf : In x (filter (fun x => String.eqb (uid x) u) c))
    by (apply filter_In; auto).
  destruct (filter (fun x => String.eqb (uid x) u) c); [destruct Hf | discriminate H].
Qed.

Lemma count_uid_app (c1 c2 : Collection) (u : string) :
  count_uid (c1 ++ c2)%list u = (count_uid c1 u + count_uid c2 u)%nat.
Proof.
  unfold count_uid. now rewrite filter_app, length_app.
Qed.

Section Unseen.

Variables (c : Collection) (u : string).
Hypothesis unseen : forall x, In x c -> String.eqb (uid x) u = false.

Lemma unseen_find_active : find_active c u = None.
Proof.
  apply find_active_none. intros d Hin Hu.
  apply unseen in Hin. apply String.eqb_neq in Hin. contradiction.
Qed.

Lemma unseen_no_uid_clash (d : IUser) :
  uid d = u -> existsb (fun x => String.eqb (uid x) (uid d)) c = false.
Proof.
  intros ->. destruct (existsb _ c) eqn:E; [|reflexivity].
  apply existsb_exists in E. destruct E as [x [Hin Hx]].
  rewrite (unseen x Hin) in Hx. discriminate.
Qed.

Lemma unseen_find_appended (d : IUser) :
  uid d = u -> isActive d = true -> find_active (c ++ [d])%list u = Some d.
Proof.
  intros Hu Ha. unfold find_active.
  induction c as [|x l IH]; cbn [app find].
  - unfold matches_active. rewrite Hu, String.eqb_refl, Ha. reflexivity.
  - unfold matches_active at 1. rewrite (unseen x (or_introl eq_refl)).
    cbn [andb]. apply IH. intros y Hy. apply unseen. now right.
Qed.

Lemma unseen_update_appended (d : IUser) (t : Z) :
  uid d = u ->
  update_lastLoginAt (c ++ [d])%list u t = (c ++ [set_lastLoginAt d t])%list.
Proof.
  intros Hu. unfold update_lastLoginAt. rewrite map_app. cbn [map].
  rewrite Hu, String.eqb_refl. f_equal.
  induction c as [|x l IH]; [reflexivity|].
  cbn [map]. rewrite (unseen x (or_introl eq_refl)). f_equal.
  apply IH. intros y Hy. apply unseen. now right.
Qed.

End Unseen.

Lemma no_email_clash (c : Collection) (d : IUser) :
  (forall x, In x c -> email x <> email d) ->
  existsb (fun x => opt_string_eqb (email x) (email d)) c = false.
Proof.
  intros H. destruct (existsb _ c) eqn:E; [|reflexivity].
  apply existsb_exists in E. destruct E as [x [Hin Hx]].
  exfalso. apply (H x Hin).
  destruct (email x), (email d); cbn in Hx; try discriminate; [|reflexivity].
  apply String.eqb_eq in Hx. now subst.
Qed.

(** The first login of a subject, when the store takes the new document. *)
Lemma first_login_creates
    (env : Env) (req : Request) (c : Collection) (tk : string)
    (jwtError : Js.Thrown) (decodedToken : DecodedIdToken) :
  credential req = Some tk ->
  jwt_verify env tk (secret_of env) = inl jwtError ->
  verifyIdToken env tk = inr decodedToken ->
  store_up env ->
  count_uid c (id_uid decodedToken) = 0%nat ->
  let mongoUser :=
    User_new (runtime env) (id_uid decodedToken) (id_email decodedToken) (id_name decodedToken)
      (id_picture decodedToken) USER true (now env) in
  validate_user mongoUser = true ->
  (forall x, In x c -> email x <> email mongoUser) ->
  ExpressApi.authenticateToken env req (begin_request c) =
  (Normal tt,
   {| users := (c ++ [mongoUser])%list;
      calls := [CallJwtVerify tk (secret_of env); CallVerifyIdToken tk;
                CallFindOne (id_uid decodedToken); CallSave (id_uid decodedToken)];
      req_user := Some decodedToken; req_mongoUser := Some mongoUser;
      sent := []; next_calls := 1 |}).
Proof.
  intros Hc Hv Hf Hup Hz mongoUser Hval Hem.
  rewrite (authenticateToken_credential env req _ Hc).
  pose proof (@count_uid_zero _ _ Hz) as Hun.
  pose proof (@unseen_find_active _ _ Hun) as Hd.
  assert (Hi : insert_user c mongoUser = inr (c ++ [mongoUser])%list).
  { unfold insert_user.
    rewrite (@unseen_no_uid_clash _ _ Hun mongoUser eq_refl).
    now rewrite (@no_email_clash c mongoUser Hem). }
  unfold secret_of in *. run. rewrite Hv. run. rewrite Hf. run.
  rewrite (Hup OpFindOne). run. rewrite Hd. run.
  fold mongoUser. rewrite Hval. run.
  rewrite (Hup OpSave). run. rewrite Hi.
  reflexivity.
Qed.

(** A later login of a subject with an active Account. *)
Lemma returning_login
    (env : Env) (req : Request) (c : Collection) (tk : string)
    (jwtError : Js.Thrown) (decodedToken : DecodedIdToken) (d : IUser) :
  credential req = Some tk ->
  jwt_verify env tk (secret_of env) = inl jwtError ->
  verifyIdToken env tk = inr decodedToken ->
  store_up env ->
  find_active c (id_uid decodedToken) = Some d ->
  validate_user d = true ->
  ExpressApi.authenticateToken env req (begin_request c) =
  (Normal tt,
   {| users := update_lastLoginAt c (id_uid decodedToken) (now env);
      calls := [CallJwtVerify tk (secret_of env); CallVerifyIdToken tk;
                CallFindOne (id_uid decodedToken); CallSave (id_uid decodedToken)];
      req_user := Some decodedToken;
      req_mongoUser := Some (set_lastLoginAt d (now env));
      sent := []; next_calls := 1 |}).
Proof.
  intros Hc Hv Hf Hup Hd Hval.
  rewrite (authenticateToken_credential env req _ Hc).
  destruct (@find_active_some _ _ _ Hd) as [_ [Hu _]].
  unfold secret_of in *. run. rewrite Hv. run. rewrite Hf. run.
  rewrite (Hup OpFindOne). run. rewrite Hd. run.
  rewrite validate_set_lastLoginAt, Hval. run.
  rewrite (Hup OpSave). run.
  cbn [set_lastLoginAt uid]. rewrite Hu. reflexivity.
Qed.

(** C8, as stated, fails: the subject id is new but its email is the one
    of another Account; the create is rejected by the unique index on
    [email], both calls answer INVALID_TOKEN, and no Account of that subject
    exists afterwards. *)
Lemma new_subject_with_taken_email :
  let stored := sample_user "u0" "shared@example.com" "First" true in
  let claims := sample_claims "u1" (Some "shared@example.com") (Some "Second") None in
  let req := bearer "valid-firebase-token" in
  let s1 := exec (ExpressApi.authenticateToken
                    (env_external (inr claims) no_fault 1700000100) req)
              (begin_request [stored]) in
  let s2 := exec (ExpressApi.authenticateToken
                    (env_external (inr claims) no_fault 1700000200) req)
              (begin_request (users s1)) in
  count_uid [stored] "u1" = 0%nat /\
  sent s1 = [response 401 "INVALID_TOKEN" "Invalid or expired token"] /\
  sent s2 = [response 401 "INVALID_TOKEN" "Invalid or expired token"] /\
  users s2 = [stored] /\
  count_uid (users s2) "u1" = 0%nat /\
  count_uid (users s2) "u1" <> 1%nat.
Proof.
  vm_compute. repeat split. discriminate.
Qed.

(** C8, amended.  The same identity token is presented twice in a row for
    a subject id not stored before, the store is reachable, and the token
    carries a non-empty email that no stored Account holds.  The first call
    creates the Account; the second finds it and sets its login date, and
    changes nothing else; one Account of that subject id is stored after
    each call. *)
Theorem first_login_twice
    (env1 env2 : Env) (req : Request) (c : Collection) (tk : string)
    (jwtError1 jwtError2 : Js.Thrown) (decodedToken : DecodedIdToken) :
  credential req = Some tk ->
  jwt_verify env1 tk (secret_of env1) = inl jwtError1 ->
  jwt_verify env2 tk (secret_of env2) = inl jwtError2 ->
  verifyIdToken env1 tk = inr decodedToken ->
  verifyIdToken env2 tk = inr decodedToken ->
  store_up env1 -> store_up env2 ->
  count_uid c (id_uid decodedToken) = 0%nat ->
  let created :=
    User_new (runtime env1) (id_uid decodedToken) (id_email decodedToken) (id_name decodedToken)
      (id_picture decodedToken) USER true (now env1) in
  validate_user created = true ->
  (forall x, In x c -> email x <> email created) ->
  let s1 := exec (ExpressApi.authenticateToken env1 req) (begin_request c) in
  let s2 := exec (ExpressApi.authenticateToken env2 req) (begin_request (users s1)) in
  users s1 = (c ++ [created])%list /\
  users s2 = (c ++ [set_lastLoginAt created (now env2)])%list /\
  count_uid (users s1) (id_uid decodedToken) = 1%nat /\
  count_uid (users s2) (id_uid decodedToken) = 1%nat /\
  List.length (users s2) = List.length (users s1) /\
  next_calls s1 = 1%nat /\ next_calls s2 = 1%nat /\
  sent s1 = [] /\ sent s2 = [] /\
  req_mongoUser s1 = Some created /\
  req_mongoUser s2 = Some (set_lastLoginAt created (now env2)).
Proof.
  intros Hc Hv1 Hv2 Hf1 Hf2 Hup1 Hup2 Hz created Hval Hem s1 s2.
  pose proof (@count_uid_zero _ _ Hz) as Hun.
  assert (E1 : ExpressApi.authenticateToken env1 req (begin_request c) = _)
    by (apply (@first_login_creates env1 req c tk jwtError1 decodedToken); assumption).
  fold created in E1.
  assert (Hs1 : users s1 = (c ++ [created])%list)
    by (subst s1; unfold exec; rewrite E1; reflexivity).
  assert (Hfind : find_active (users s1) (id_uid decodedToken) = Some created)
    by (rewrite Hs1; apply unseen_find_appended; [exact Hun | reflexivity | reflexivity]).
  assert (E2 : ExpressApi.authenticateToken env2 req (begin_request (users s1)) = _)
    by (apply (@returning_login env2 req (users s1) tk jwtError2 decodedToken created);
        assumption).
  assert (Hs2 : users s2 = (c ++ [set_lastLoginAt created (now env2)])%list).
  { subst s2. unfold exec. rewrite E2. cbn [snd users]. rewrite Hs1.
    apply unseen_update_appended; [exact Hun | reflexivity]. }
  assert (Hone : forall d, uid d = id_uid decodedToken ->
                   count_uid (c ++ [d])%list (id_uid decodedToken) = 1%nat).
  { intros d Hd. rewrite count_uid_app, Hz. unfold count_uid. cbn [filter].
    rewrite Hd, String.eqb_refl. reflexivity. }
  split; [exact Hs1|]. split; [exact Hs2|].
  split; [rewrite Hs1; now apply Hone|].
  split; [rewrite Hs2; now apply Hone|].
  split; [rewrite Hs1, Hs2, !length_app; reflexivity|].
  assert (Hst1 : s1 = snd (ExpressApi.authenticateToken env1 req (begin_request c)))
    by reflexivity.
  assert (Hst2 : s2 = snd (ExpressApi.authenticateToken env2 req
                             (begin_request (users s1))))
    by reflexivity.
  rewrite E1 in Hst1. rewrite E2 in Hst2. cbn [snd] in Hst1, Hst2.
  clearbody s1 s2. subst s1 s2. cbn [next_calls sent req_mongoUser].
  repeat split.
Qed.

Lemma first_login_twice_witness :
  let stored := sample_user "u0" "first@example.com" "First" true in
  let claims := sample_claims "newuser123" (Some "NewUser@example.com")
                  (Some " New User ") (Some "https://example.com/new.jpg") in
  let env1 := env_external (inr claims) no_fault 1700000100 in
  let env2 := env_external (inr claims) no_fault 1700000200 in
  let req := bearer "valid-firebase-token" in
  let created :=
    User_new (runtime env1) (id_uid claims) (id_email claims) (id_name claims)
      (id_picture claims) USER true (now env1) in
  let s1 := exec (ExpressApi.authenticateToken env1 req) (begin_request [stored]) in
  let s2 := exec (ExpressApi.authenticateToken env2 req) (begin_request (users s1)) in
  users s1 = ([stored] ++ [created])%list /\
  users s2 = ([stored] ++ [set_lastLoginAt created (now env2)])%list /\
  count_uid (users s1) (id_uid claims) = 1%nat /\
  count_uid (users s2) (id_uid claims) = 1%nat /\
  List.length (users s2) = List.length (users s1) /\
  next_calls s1 = 1%nat /\ next_calls s2 = 1%nat /\
  sent s1 = [] /\ sent s2 = [] /\
  req_mongoUser s1 = Some created /\
  req_mongoUser s2 = Some (set_lastLoginAt created (now env2)).
Proof.
  intros stored claims env1 env2 req.
  apply (@first_login_twice env1 env2 req [stored] "valid-firebase-token"
           jwt_malformed jwt_malformed claims).
  - reflexivity.
  - reflexivity.
  - reflexivity.
  - reflexivity.
  - reflexivity.
  - intros []; reflexivity.
  - intros []; reflexivity.
  - reflexivity.
  - reflexivity.
  - intros x [<-|[]]. discriminate.
Defined.

(* ================================================================== *)
(** ** What a successful run attaches *)

(** Case analysis on whatever the run branches on next. *)
Ltac crack_using rw :=
  repeat (run; rw;
          match goal with
          | |- context [match ?x with _ => _ end] =>
              lazymatch x with
              | context [match _ with _ => _ end] => fail
              | _ => destruct x eqn:?
              end
          end).

Ltac crack := crack_using idtac.

Lemma success_attaches_active (env : Env) (req : Request) (c : Collection) :
  let s := exec (ExpressApi.authenticateToken env req) (begin_request c) in
  (0 < next_calls s)%nat ->
  exists u, req_mongoUser s = Some u /\ isActive u = true /\ sent s = [] /\
            next_calls s = 1%nat.
Proof.
  intros s. subst s.
  destruct (credential req) as [tk|] eqn:Hc.
  - unfold exec. rewrite (authenticateToken_credential env req _ Hc).
    crack; run; cbn [next_calls req_mongoUser sent]; intros Hn;
      try (exfalso; lia);
      eexists; (split; [reflexivity|]); (split; [|split; reflexivity]);
      try reflexivity;
      match goal with
      | H : find_active _ _ = Some _ |- _ =>
          apply find_active_some in H; destruct H as [_ [_ H]]; exact H
      end.
  - destruct (authenticateToken_no_credential env req (begin_request c) Hc)
      as [e [m [_ E]]].
    unfold exec. rewrite E. cbn. lia.
Qed.

(** C10.  Whenever a run of [authenticateToken] on a fresh request ends
    with [next()] called, the Account attached to the request has its
    active flag true; [requireActiveUser] run next on that request calls
    [next()] and sends nothing, so ACCOUNT_DISABLED is not answered. *)
Theorem active_gate_passes_after_authentication
    (env : Env) (req : Request) (c : Collection) :
  let s := exec (ExpressApi.authenticateToken env req) (begin_request c) in
  (0 < next_calls s)%nat ->
  (exists u, req_mongoUser s = Some u /\ isActive u = true) /\
  let g := ExpressApi.requireActiveUser s in
  fst g = Normal tt /\
  sent (snd g) = [] /\
  next_calls (snd g) = 2%nat /\
  (forall x, In x (sent (snd g)) -> error x <> "ACCOUNT_DISABLED").
Proof.
  intros s Hn.
  destruct (success_attaches_active env req c Hn) as [u [Hu [Ha [Hs H1]]]].
  fold s in Hu, Hs, H1.
  split; [exists u; auto|].
  unfold ExpressApi.requireActiveUser, try_catch.
  rewrite Hu, Ha. cbn [negb]. unfold next, modify. cbn [fst snd sent next_calls].
  rewrite Hs, H1. repeat split. intros x [].
Qed.

Lemma active_gate_passes_after_authentication_witness :
  let env := env_local "access_token" in
  let stored := sample_user "user123" "test@example.com" "Test User" true in
  let s := exec (ExpressApi.authenticateToken env (bearer "valid-jwt-token"))
             (begin_request [stored]) in
  (exists u, req_mongoUser s = Some u /\ isActive u = true) /\
  let g := ExpressApi.requireActiveUser s in
  fst g = Normal tt /\
  sent (snd g) = [] /\
  next_calls (snd g) = 2%nat /\
  (forall x, In x (sent (snd g)) -> error x <> "ACCOUNT_DISABLED").
Proof.
  intros env stored.
  apply (@active_gate_passes_after_authentication env (bearer "valid-jwt-token") [stored]).
  vm_compute. lia.
Defined.

(* ================================================================== *)
(** ** The legacy verifiers *)

Lemma insert_user_result (c c' : Collection) (d : IUser) :
  insert_user c d = inr c' -> c' = (c ++ [d])%list.
Proof.
  unfold insert_user.
  destruct (existsb (fun x => String.eqb (uid x) (uid d)) c); [discriminate|].
  destruct (existsb (fun x => opt_string_eqb (email x) (email d)) c); [discriminate|].
  now intros [= <-].
Qed.







(* ================================================================== *)
(** ** The unique index on the subject id *)

Lemma update_keeps_uids (c : Collection) (u : string) (t : Z) :
  map uid (update_lastLoginAt c u t) = map uid c.
Proof.
  unfold update_lastLoginAt. induction c as [|x c IH]; [reflexivity|].
  cbn [map]. rewrite IH. now destruct (String.eqb (uid x) u).
Qed.

Lemma insert_keeps_unique (c c' : Collection) (d : IUser) :
  insert_user c d = inr c' -> uid_unique c -> uid_unique c'.
Proof.
  unfold insert_user, uid_unique.
  destruct (existsb (fun x => String.eqb (uid x) (uid d)) c) eqn:E; [discriminate|].
  destruct (existsb (fun x => opt_string_eqb (email x) (email d)) c); [discriminate|].
  intros Heq H. injection Heq as Heq. subst c'. rewrite map_app. cbn [map].
  apply NoDup_Add with (a := uid d) (l := map uid c).
  - replace (map uid c) with (map uid c ++ [])%list at 1 by apply app_nil_r.
    apply Add_app.
  - split; [exact H|]. intros Hin. apply in_map_iff in Hin.
    destruct Hin as [x [Hx Hin]].
    assert (existsb (fun x => String.eqb (uid x) (uid d)) c = true); [|congruence].
    apply existsb_exists. exists x. split; [exact Hin|]. now apply String.eqb_eq.
Qed.

(** Every run of [authenticateToken] keeps the subject ids of the
    collection distinct: this is what lets a stored document be addressed by
    its subject id. *)
Lemma authenticateToken_keeps_unique (env : Env) (req : Request) (c : Collection) :
  uid_unique c ->
  uid_unique (users (exec (ExpressApi.authenticateToken env req) (begin_request c))).
Proof.
  intros H.
  destruct (credential req) as [tk|] eqn:Hc.
  - unfold exec. rewrite (authenticateToken_credential env req _ Hc).
    crack; run; try exact H.
    + unfold uid_unique. now rewrite update_keeps_uids.
    + eapply insert_keeps_unique; eassumption.
  - destruct (authenticateToken_no_credential env req (begin_request c) Hc)
      as [e [m [_ E]]].
    unfold exec. rewrite E. exact H.
Qed.

(* ================================================================== *)
(** ** The gates *)

(** A brand-new subject is created with the role [USER] and active; the
    admin gate run next answers 403 FORBIDDEN. *)
Example new_subject_is_denied_by_admin_gate :
  let claims := sample_claims "u1" (Some "u1@example.com") (Some "U One") None in
  let s := exec (ExpressApi.authenticateToken
                   (env_external (inr claims) no_fault 1700000100)
                   (bearer "valid-firebase-token"))
             (begin_request []) in
  map role (users s) = [USER] /\ map isActive (users s) = [true] /\
  next_calls s = 1%nat /\
  sent (exec ExpressApi.requireAdmin s) = [response 403 "FORBIDDEN" "Admin access required"] /\
  next_calls (exec ExpressApi.requireAdmin s) = 1%nat.
Proof.
  vm_compute. repeat split.
Qed.

(** Both gates answer 401 UNAUTHORIZED when no Account is attached. *)
Lemma gates_without_identity (s : State) :
  req_mongoUser s = None ->
  sent (exec ExpressApi.requireAdmin s)
    = (sent s ++ [response 401 "UNAUTHORIZED" "User authentication required"])%list /\
  sent (exec ExpressApi.requireActiveUser s)
    = (sent s ++ [response 401 "UNAUTHORIZED" "User authentication required"])%list.
Proof.
  intros H. unfold exec, ExpressApi.requireAdmin, ExpressApi.requireActiveUser, try_catch.
  rewrite H. split; reflexivity.
Qed.

(* ================================================================== *)
(** ** What every run of [authenticateToken] keeps *)

(** X1.  A run of [authenticateToken] on a fresh request never both
    answers and hands on: it sends at most one response, calls [next()] at
    most once, and never does both. *)
Theorem authenticateToken_one_outcome (env : Env) (req : Request) (c : Collection) :
  let s := exec (ExpressApi.authenticateToken env req) (begin_request c) in
  (List.length (sent s) + next_calls s <= 1)%nat.
Proof.
  intros s. subst s.
  destruct (credential req) as [tk|] eqn:Hc.
  - unfold exec. rewrite (authenticateToken_credential env req _ Hc).
    crack; run; cbn [List.length app Nat.add]; lia.
  - destruct (authenticateToken_no_credential env req (begin_request c) Hc)
      as [e [m [_ E]]].
    unfold exec. rewrite E. cbn. lia.
Qed.

Lemma same_but_login_refl (d : IUser) : same_but_login d d.
Proof. repeat split. Qed.

Lemma Forall2_same (R : IUser -> IUser -> Prop) (f : IUser -> IUser) (l : Collection) :
  (forall x, R x (f x)) -> Forall2 R l (map f l).
Proof.
  intros H. induction l as [|x l IH]; cbn [map]; constructor; auto.
Qed.

Lemma Forall2_diag (R : IUser -> IUser -> Prop) (l : Collection) :
  (forall x, R x x) -> Forall2 R l l.
Proof.
  intros H. induction l as [|x l IH]; constructor; auto.
Qed.

Lemma firstn_length_app (l l' : Collection) :
  firstn (List.length l) (l ++ l') = l.
Proof.
  induction l as [|x l IH]; cbn; [now destruct l' | now rewrite IH].
Qed.

(** X2.  Authentication never removes an Account and never changes the
    subject id, email, name, avatar, role, active flag or profile of a stored
    Account: after the run the collection starts with the documents of
    before, each the same but perhaps for its login date, and holds at most
    one document more. *)
Theorem authenticateToken_keeps_accounts (env : Env) (req : Request) (c : Collection) :
  let s := exec (ExpressApi.authenticateToken env req) (begin_request c) in
  Forall2 same_but_login c (firstn (List.length c) (users s)) /\
  (List.length c <= List.length (users s) <= S (List.length c))%nat.
Proof.
  intros s. subst s.
  assert (Hsame : Forall2 same_but_login c (firstn (List.length c) c) /\
                  (List.length c <= List.length c <= S (List.length c))%nat).
  { rewrite firstn_all. split; [|lia]. apply Forall2_diag, same_but_login_refl. }
  destruct (credential req) as [tk|] eqn:Hc.
  - unfold exec. rewrite (authenticateToken_credential env req _ Hc).
    crack; run; try exact Hsame.
    + unfold update_lastLoginAt. rewrite length_map. split; [|lia].
      rewrite <- (length_map
                    (fun x => if String.eqb (uid x) (uid (set_lastLoginAt i (now env)))
                              then set_lastLoginAt x (now env) else x) c) at 1.
      rewrite firstn_all. apply Forall2_same. intros x.
      destruct (String.eqb (uid x) _); repeat split.
    + match goal with H : insert_user _ _ = inr _ |- _ =>
        apply insert_user_result in H; subst
      end.
      rewrite firstn_length_app, length_app. cbn [List.length]. split; [|lia].
      apply Forall2_diag, same_but_login_refl.
  - destruct (authenticateToken_no_credential env req (begin_request c) Hc)
      as [e [m [_ E]]].
    unfold exec. rewrite E. exact Hsame.
Qed.

(* ================================================================== *)
(** ** The stacks of the routers *)

(** The admin stack, from the state authentication ends in. *)
Lemma admin_router_from (env : Env) (req : Request) (c : Collection) (u : IUser) :
  let s1 := exec (ExpressApi.authenticateToken env req) (begin_request c) in
  req_mongoUser s1 = Some u -> isActive u = true -> next_calls s1 = 1%nat ->
  admin_router env req (begin_request c) =
  if isAdmin u
  then (Normal tt,
        {| users := users s1; calls := calls s1; req_user := req_user s1;
           req_mongoUser := req_mongoUser s1; sent := sent s1; next_calls := 3 |})
  else (Normal tt,
        {| users := users s1; calls := calls s1; req_user := req_user s1;
           req_mongoUser := req_mongoUser s1;
           sent := (sent s1 ++ [response 403 "FORBIDDEN" "Admin access required"])%list;
           next_calls := 2 |}).
Proof.
  intros s1 Hu Ha Hn. unfold admin_router, use_then at 1.
  pose proof (authenticateToken_completes env req (begin_request c)) as Hc.
  subst s1. unfold exec in *.
  destruct (ExpressApi.authenticateToken env req (begin_request c)) as [r s1].
  cbn [fst snd] in *. subst r.
  rewrite Hn. cbn [begin_request next_calls Nat.ltb Nat.leb].
  unfold use_then, ExpressApi.requireActiveUser, ExpressApi.requireAdmin, try_catch.
  rewrite Hu, Ha. cbn [negb]. unfold next, modify at 1. cbn [next_calls req_mongoUser].
  rewrite Hn. cbn [Nat.ltb Nat.leb]. rewrite Hu.
  destruct (isAdmin u); cbn [negb]; unfold respond, modify;
    cbn [users calls req_user req_mongoUser sent next_calls]; rewrite ?Hu; reflexivity.
Qed.

Lemma admin_router_stops (env : Env) (req : Request) (c : Collection) :
  let s1 := exec (ExpressApi.authenticateToken env req) (begin_request c) in
  next_calls s1 = 0%nat ->
  admin_router env req (begin_request c) = (Normal tt, s1).
Proof.
  intros s1 Hn. unfold admin_router, use_then at 1.
  pose proof (authenticateToken_completes env req (begin_request c)) as Hc.
  subst s1. unfold exec in *.
  destruct (ExpressApi.authenticateToken env req (begin_request c)) as [r s1].
  cbn [fst snd] in *. subst r. rewrite Hn. reflexivity.
Qed.

(** X3.  A route of the admin router is reached only with an Account
    attached that is active and has the role admin, and with no response
    sent on the way. *)
Theorem admin_route_reached_only_by_active_admin
    (env : Env) (req : Request) (c : Collection) :
  let s := exec (admin_router env req) (begin_request c) in
  next_calls s = 3%nat ->
  exists u, req_mongoUser s = Some u /\ isActive u = true /\ role u = ADMIN /\
            sent s = [].
Proof.
  intros s H3. subst s. unfold exec in H3 |- *.
  pose proof (success_attaches_active env req c) as Hs.
  cbv zeta in Hs.
  destruct (next_calls (exec (ExpressApi.authenticateToken env req) (begin_request c)))
    as [|n] eqn:Hn.
  - rewrite (@admin_router_stops env req c Hn) in H3. cbn [snd] in H3.
    rewrite Hn in H3. discriminate.
  - destruct Hs as [u [Hu [Ha [Hsent Hone]]]]; [lia|].
    rewrite Hone in Hn.
    rewrite (@admin_router_from env req c u Hu Ha Hn) in H3 |- *.
    destruct (isAdmin u) eqn:Hadm; cbn [snd next_calls] in H3; [|discriminate].
    exists u. cbn [snd req_mongoUser sent]. repeat split; auto.
    unfold isAdmin in Hadm. now destruct (role u).
Qed.

Lemma admin_route_reached_only_by_active_admin_witness :
  let boss :=
    {| uid := "user123"; email := Some "boss@example.com"; displayName := Some "Boss";
       photoURL := None; role := ADMIN; isActive := true; profile := emptyProfile;
       lastLoginAt := None |} in
  let s := exec (admin_router (env_local "access_token") (bearer "valid-jwt-token"))
             (begin_request [boss]) in
  exists u, req_mongoUser s = Some u /\ isActive u = true /\ role u = ADMIN /\
            sent s = [].
Proof.
  intros boss.
  apply (@admin_route_reached_only_by_active_admin
           (env_local "access_token") (bearer "valid-jwt-token") [boss]).
  reflexivity.
Defined.

(** X4.  On the local path the admin stack judges by the role of the
    stored Account; the role written in the token's payload is not
    consulted.  With an active Account found for the payload's subject, the
    route is reached when that Account is an admin, and 403 FORBIDDEN is
    answered otherwise, whatever the payload says. *)
Theorem admin_router_judges_stored_role
    (env : Env) (req : Request) (c : Collection) (tk : string)
    (decoded : AccessTokenPayload) (d : IUser) :
  credential req = Some tk ->
  jwt_verify env tk (secret_of env) = inr decoded ->
  at_type decoded = "access_token" ->
  store_fault env OpFindOne = None ->
  find_active c (at_uid decoded) = Some d ->
  let s := exec (admin_router env req) (begin_request c) in
  users s = c /\
  filter is_provider_call (calls s) = [] /\
  req_mongoUser s = Some d /\
  (role d = ADMIN -> next_calls s = 3%nat /\ sent s = []) /\
  (role d = USER ->
     next_calls s = 2%nat /\
     sent s = [response 403 "FORBIDDEN" "Admin access required"]).
Proof.
  intros Hc Hv Ht Hf Hd s.
  assert (E : ExpressApi.authenticateToken env req (begin_request c) =
              (Normal tt,
               {| users := c;
                  calls := [CallJwtVerify tk (secret_of env); CallFindOne (at_uid decoded)];
                  req_user := Some (ExpressApi.mockFirebaseToken decoded d);
                  req_mongoUser := Some d; sent := []; next_calls := 1 |})).
  { rewrite (authenticateToken_credential env req _ Hc).
    unfold secret_of in *. run. rewrite Hv. run. rewrite Ht.
    cbn [String.eqb Ascii.eqb Bool.eqb]. rewrite Hf. run. rewrite Hd. reflexivity. }
  destruct (@find_active_some _ _ _ Hd) as [_ [_ Ha]].
  subst s. unfold exec.
  rewrite (@admin_router_from env req c d);
    unfold exec; rewrite ?E; try reflexivity; try exact Ha.
  cbn [snd req_mongoUser users calls sent next_calls app].
  unfold isAdmin.
  destruct (role d); cbn [UserRole_eqb snd users calls req_mongoUser sent next_calls filter is_provider_call];
    repeat split; intros; congruence.
Qed.

Lemma admin_router_judges_stored_role_witness :
  let claimed_admin :=
    {| at_uid := "user123"; at_email := "test@example.com"; at_role := "admin";
       at_iat := 1700000000; at_exp := 1700003600; at_type := "access_token" |} in
  let env :=
    {| runtime := Js.ascii_runtime; JWT_SECRET := Some "s3cret";
       jwt_verify := fun _ _ => inr claimed_admin;
       verifyIdToken := fun _ => inl invalid_error;
       now := 1700000100;
       store_fault := no_fault |} in
  let d := sample_user "user123" "test@example.com" "Test User" true in
  let s := exec (admin_router env (bearer "forged-role-token")) (begin_request [d]) in
  users s = [d] /\
  filter is_provider_call (calls s) = [] /\
  req_mongoUser s = Some d /\
  (role d = ADMIN -> next_calls s = 3%nat /\ sent s = []) /\
  (role d = USER ->
     next_calls s = 2%nat /\
     sent s = [response 403 "FORBIDDEN" "Admin access required"]).
Proof.
  intros claimed_admin env d.
  apply (@admin_router_judges_stored_role env (bearer "forged-role-token") [d]
           "forged-role-token" claimed_admin d).
  - reflexivity.
  - reflexivity.
  - reflexivity.
  - reflexivity.
  - reflexivity.
Defined.

(** X5.  The first request of a new subject on the admin router creates
    its Account, with the role user, and is then answered 403 FORBIDDEN: the
    Account stays although the request is denied. *)
Theorem new_subject_is_created_then_forbidden
    (env : Env) (req : Request) (c : Collection) (tk : string)
    (jwtError : Js.Thrown) (decodedToken : DecodedIdToken) :
  credential req = Some tk ->
  jwt_verify env tk (secret_of env) = inl jwtError ->
  verifyIdToken env tk = inr decodedToken ->
  store_up env ->
  count_uid c (id_uid decodedToken) = 0%nat ->
  let mongoUser :=
    User_new (runtime env) (id_uid decodedToken) (id_email decodedToken) (id_name decodedToken)
      (id_picture decodedToken) USER true (now env) in
  validate_user mongoUser = true ->
  (forall x, In x c -> email x <> email mongoUser) ->
  let s := exec (admin_router env req) (begin_request c) in
  users s = (c ++ [mongoUser])%list /\
  sent s = [response 403 "FORBIDDEN" "Admin access required"] /\
  next_calls s = 2%nat.
Proof.
  intros Hc Hv Hf Hup Hz mongoUser Hval Hem s.
  pose proof (@first_login_creates env req c tk jwtError decodedToken
                Hc Hv Hf Hup Hz Hval Hem) as E.
  fold mongoUser in E.
  subst s. unfold exec.
  rewrite (@admin_router_from env req c mongoUser);
    unfold exec; rewrite ?E; try reflexivity.
  cbn. repeat split.
Qed.

Lemma new_subject_is_created_then_forbidden_witness :
  let claims := sample_claims "u1" (Some "u1@example.com") (Some "U One") None in
  let env := env_external (inr claims) no_fault 1700000100 in
  let mongoUser :=
    User_new (runtime env) (id_uid claims) (id_email claims) (id_name claims)
      (id_picture claims) USER true (now env) in
  let s := exec (admin_router env (bearer "valid-firebase-token")) (begin_request []) in
  users s = ([] ++ [mongoUser])%list /\
  sent s = [response 403 "FORBIDDEN" "Admin access required"] /\
  next_calls s = 2%nat.
Proof.
  intros claims env.
  apply (@new_subject_is_created_then_forbidden env (bearer "valid-firebase-token") []
           "valid-firebase-token" jwt_malformed claims).
  - reflexivity.
  - reflexivity.
  - reflexivity.
  - intros []; reflexivity.
  - reflexivity.
  - reflexivity.
  - intros x [].
Defined.

(* ================================================================== *)
(** ** The global error handler *)

Lemma or_else_nonempty (a : option string) (b : string) :
  b <> "" -> Js.or_else a b <> "".
Proof.
  intros Hb. unfold Js.or_else. destruct a as [s|]; [|exact Hb].
  destruct (String.eqb s "") eqn:E; [exact Hb|]. now apply String.eqb_neq.
Qed.

(** X6.  Whatever the error, the response of [errorHandler] has the kind
    INTERNAL_SERVER_ERROR exactly when its status is 500 and REQUEST_ERROR
    otherwise, its message is never empty, and in production a 500 response
    carries 'Something went wrong' instead of the error's own message. *)
Theorem errorHandler_kind_and_masking
    (node_env : option string) (err : AppError) (r : ErrorResponse) :
  errorHandler node_env err = inr r ->
  (error r = "INTERNAL_SERVER_ERROR" <-> status r = 500) /\
  (status r <> 500 -> error r = "REQUEST_ERROR") /\
  message r <> "" /\
  (node_env = Some "production" -> status r = 500 ->
   message r = "Something went wrong").
Proof.
  unfold errorHandler.
  destruct (if String.eqb (err_name err) "ValidationError" then _ else _)
    as [e|h]; [discriminate|].
  intros [= <-]. cbn [status error message].
  set (code := status_or_500 _).
  destruct (Z.eqb code 500) eqn:E.
  - apply Z.eqb_eq in E. rewrite andb_true_r.
    split; [tauto|]. split; [congruence|]. split.
    + destruct (opt_string_eqb node_env (Some "production")); [discriminate|].
      refine (@or_else_nonempty (Some _) _ _). discriminate.
    + intros -> _. reflexivity.
  - apply Z.eqb_neq in E. rewrite andb_false_r.
    split; [split; [discriminate | congruence]|].
    split; [reflexivity|]. split; [|congruence].
    refine (@or_else_nonempty (Some _) _ _). discriminate.
Qed.

Lemma errorHandler_kind_and_masking_witness :
  let r := {| status := 500; error := "INTERNAL_SERVER_ERROR";
              message := "Something went wrong" |} in
  (error r = "INTERNAL_SERVER_ERROR" <-> status r = 500) /\
  (status r <> 500 -> error r = "REQUEST_ERROR") /\
  message r <> "" /\
  (Some "production" = Some "production" -> status r = 500 ->
   message r = "Something went wrong").
Proof.
  intros r.
  apply (@errorHandler_kind_and_masking (Some "production")
           {| err_name := "Error"; err_message := "connect ECONNREFUSED 10.0.0.5:27017";
              err_statusCode := None; err_code := None; err_errors := None |} r).
  reflexivity.
Defined.

(** X7.  The rules of [errorHandler] do not exclude one another and the
    later one stands: an error whose message contains 'Firebase' is answered
    401 'Authentication failed' whatever its name, code and own status (a
    cast error, a duplicate key, a validation error alike), unless it is a
    JSON syntax error. *)
Theorem errorHandler_firebase_rule_overrides
    (node_env : option string) (err : AppError) :
  Js.includes (err_message err) "Firebase" = true ->
  (err_name err = "ValidationError" -> err_errors err <> None) ->
  err_name err <> "SyntaxError" ->
  errorHandler node_env err =
  inr {| status := 401; error := "REQUEST_ERROR"; message := "Authentication failed" |}.
Proof.
  intros Hf Hv Hs. unfold errorHandler.
  apply String.eqb_neq in Hs. rewrite Hs, Hf. cbn [andb].
  destruct (String.eqb (err_name err) "ValidationError") eqn:E.
  - apply String.eqb_eq in E. specialize (Hv E).
    destruct (err_errors err); [|congruence].
    cbn. now rewrite andb_false_r.
  - cbn. now rewrite andb_false_r.
Qed.

Lemma errorHandler_firebase_rule_overrides_witness :
  errorHandler None
    {| err_name := "MongoServerError";
       err_message := "E11000 duplicate key error collection: FirebaseUsers";
       err_statusCode := None; err_code := Some 11000; err_errors := None |} =
  inr {| status := 401; error := "REQUEST_ERROR"; message := "Authentication failed" |}.
Proof.
  apply errorHandler_firebase_rule_overrides.
  - reflexivity.
  - discriminate.
  - discriminate.
Defined.

(** X8.  An error that no rule matches (its name is neither CastError nor
    ValidationError, it is not a MongoServerError with code 11000, its
    message does not contain 'Firebase', it is not a SyntaxError whose
    message contains 'JSON') keeps its own status when it has a non-zero one,
    and is answered 500 when it has none or 0, in every environment.  Its
    own message is passed on, 'Internal Server Error' standing in for an
    empty one, except for a 500 in production, which carries 'Something went
    wrong'. *)
Theorem errorHandler_unmatched_error
    (node_env : option string) (err : AppError) :
  err_name err <> "CastError" ->
  ~ (err_name err = "MongoServerError" /\ err_code err = Some 11000) ->
  err_name err <> "ValidationError" ->
  Js.includes (err_message err) "Firebase" = false ->
  ~ (err_name err = "SyntaxError" /\ Js.includes (err_message err) "JSON" = true) ->
  exists r,
    errorHandler node_env err = inr r /\
    (forall k, err_statusCode err = Some k -> k <> 0 -> status r = k) /\
    (err_statusCode err = None \/ err_statusCode err = Some 0 -> status r = 500) /\
    (node_env = Some "production" -> status r = 500 ->
     message r = "Something went wrong") /\
    (node_env <> Some "production" \/ status r <> 500 ->
     (err_message err <> "" -> message r = err_message err) /\
     (err_message err = "" -> message r = "Internal Server Error")).
Proof.
  intros H1 H2 H3 Hf H4. unfold errorHandler.
  apply String.eqb_neq in H1, H3. rewrite H1, H3, Hf.
  assert (Hm : (String.eqb (err_name err) "MongoServerError"
                && opt_Z_eqb (err_code err) 11000)%bool = false).
  { apply andb_false_iff.
    destruct (String.eqb (err_name err) "MongoServerError") eqn:E; [|now left].
    right. apply String.eqb_eq in E.
    destruct (err_code err) as [k|] eqn:Ek; [|reflexivity]. cbn.
    apply Z.eqb_neq. intros ->. apply H2. auto. }
  assert (Hj : (String.eqb (err_name err) "SyntaxError"
                && Js.includes (err_message err) "JSON")%bool = false).
  { apply andb_false_iff.
    destruct (String.eqb (err_name err) "SyntaxError") eqn:E; [|now left].
    right. apply String.eqb_eq in E.
    destruct (Js.includes (err_message err) "JSON"); [|reflexivity].
    exfalso. apply H4. auto. }
  rewrite Hm, Hj. eexists. split; [reflexivity|].
  cbn [status message statusCode handled_message Js.or_else].
  set (code := status_or_500 (err_statusCode err)).
  assert (Hk : forall k, err_statusCode err = Some k -> k <> 0 -> code = k).
  { intros k E Hk. unfold code, status_or_500. rewrite E.
    apply Z.eqb_neq in Hk. now rewrite Hk. }
  assert (H0 : err_statusCode err = None \/ err_statusCode err = Some 0 -> code = 500).
  { unfold code. intros [-> | ->]; reflexivity. }
  split; [exact Hk|]. split; [exact H0|]. split.
  - intros -> E. rewrite E. reflexivity.
  - intros Hor.
    assert (Hmask : (opt_string_eqb node_env (Some "production") && Z.eqb code 500)%bool
                    = false).
    { apply andb_false_iff. destruct Hor as [Hp|Hc].
      - left. destruct node_env as [x|]; [|reflexivity]. cbn.
        apply String.eqb_neq. congruence.
      - right. now apply Z.eqb_neq. }
    rewrite Hmask. split.
    + intros Hne. apply String.eqb_neq in Hne. now rewrite Hne.
    + intros ->. reflexivity.
Qed.

Lemma errorHandler_unmatched_error_witness :
  exists r,
    errorHandler (Some "production")
      {| err_name := "MongoServerError"; err_message := "Document failed validation";
         err_statusCode := None; err_code := Some 121; err_errors := None |} = inr r /\
    (forall k, @None Z = Some k -> k <> 0 -> status r = k) /\
    (@None Z = None \/ @None Z = Some 0 -> status r = 500) /\
    (Some "production" = Some "production" -> status r = 500 ->
     message r = "Something went wrong") /\
    (Some "production" <> Some "production" \/ status r <> 500 ->
     ("Document failed validation" <> "" -> message r = "Document failed validation") /\
     ("Document failed validation" = "" -> message r = "Internal Server Error")).
Proof.
  apply (@errorHandler_unmatched_error (Some "production")
           {| err_name := "MongoServerError"; err_message := "Document failed validation";
              err_statusCode := None; err_code := Some 121; err_errors := None |}).
  - discriminate.
  - intros [_ H]. discriminate H.
  - discriminate.
  - reflexivity.
  - intros [H _]. discriminate H.
Defined.

(* ================================================================== *)
(** ** The company access code *)

Lemma company_query_head (cs : Companies) (code : string) (x : string * CompanyDocument)
    (rest : Companies) :
  company_query cs code = x :: rest ->
  In x cs /\ cd_accessCode (snd x) = code /\ cd_isActive (snd x) = true.
Proof.
  unfold company_query. intros H.
  assert (Hin : In x (filter
            (fun x => (String.eqb (cd_accessCode (snd x)) code && cd_isActive (snd x))%bool) cs)).
  { destruct (filter _ cs) as [|y l]; [discriminate H|].
    cbn in H. injection H as -> _. now left. }
  apply filter_In in Hin. destruct Hin as [Hin Hp].
  apply andb_true_iff in Hp. destruct Hp as [Hc Ha].
  apply String.eqb_eq in Hc. auto.
Qed.

(** X9.  [authenticateCompanyAccessCode] hands on only with a company
    attached that comes from a stored document, is active, and whose access
    code is the one presented; nothing has been sent then. *)
Theorem company_admitted_is_active_match
    (fault : option Js.Thrown) (cs : Companies) (accessCode : option string) :
  let r := authenticateCompanyAccessCode fault cs accessCode in
  company_next r = 1%nat ->
  exists x,
    In x cs /\ req_company r = Some (company_of x) /\
    accessCode = Some (cd_accessCode (snd x)) /\
    cd_isActive (snd x) = true /\ co_isActive (company_of x) = true /\
    company_sent r = [] /\ fault = None.
Proof.
  intros r. subst r. unfold authenticateCompanyAccessCode.
  destruct accessCode as [code|]; [|discriminate].
  destruct (negb (Js.truthy (Some code))); [discriminate|].
  destruct fault; [discriminate|].
  destruct (company_query cs code) as [|x rest] eqn:Hq; [discriminate|].
  intros _. destruct (company_query_head _ _ Hq) as [Hin [Hc Ha]].
  exists x. cbn. subst code. repeat split; auto.
Qed.

Lemma company_admitted_is_active_match_witness :
  let stamp := {| seconds := 1700000000; nanoseconds := 500000000 |} in
  let acme := {| cd_name := "Acme"; cd_accessCode := "ACME-1"; cd_createdAt := stamp;
                 cd_updatedAt := stamp; cd_isActive := true |} in
  let cs := [("c1", acme)] in
  let r := authenticateCompanyAccessCode None cs (Some "ACME-1") in
  exists x,
    In x cs /\ req_company r = Some (company_of x) /\
    Some "ACME-1" = Some (cd_accessCode (snd x)) /\
    cd_isActive (snd x) = true /\ co_isActive (company_of x) = true /\
    company_sent r = [] /\ @None Js.Thrown = None.
Proof.
  intros stamp acme cs.
  apply (@company_admitted_is_active_match None cs (Some "ACME-1")).
  reflexivity.
Defined.

(** X10.  When the store answers and holds an active company with the
    code presented, the request is handed on, whatever inactive companies or
    companies with other codes are stored beside it. *)
Theorem active_company_is_admitted
    (cs : Companies) (code : string) (x : string * CompanyDocument) :
  code <> "" ->
  In x cs -> cd_accessCode (snd x) = code -> cd_isActive (snd x) = true ->
  let r := authenticateCompanyAccessCode None cs (Some code) in
  company_next r = 1%nat /\ company_sent r = [] /\ queried r = [code] /\
  exists y, req_company r = Some (company_of y) /\ co_accessCode (company_of y) = code /\
            co_isActive (company_of y) = true.
Proof.
  intros Hne Hin Hc Ha r. subst r. unfold authenticateCompanyAccessCode.
  apply String.eqb_neq in Hne. cbn [Js.truthy]. rewrite Hne. cbn [negb].
  destruct (company_query cs code) as [|y rest] eqn:Hq.
  - exfalso. unfold company_query in Hq.
    assert (Hf : In x (filter
              (fun x => (String.eqb (cd_accessCode (snd x)) code && cd_isActive (snd x))%bool) cs)).
    { apply filter_In. split; [exact Hin|]. rewrite Hc, String.eqb_refl, Ha. reflexivity. }
    destruct (filter _ cs); [destruct Hf | discriminate Hq].
  - destruct (company_query_head _ _ Hq) as [_ [Hyc Hya]].
    cbn. repeat split. exists y. repeat split; auto.
Qed.

Lemma active_company_is_admitted_witness :
  let stamp := {| seconds := 1700000000; nanoseconds := 0 |} in
  let old := {| cd_name := "Acme (closed)"; cd_accessCode := "ACME-1"; cd_createdAt := stamp;
                cd_updatedAt := stamp; cd_isActive := false |} in
  let acme := {| cd_name := "Acme"; cd_accessCode := "ACME-1"; cd_createdAt := stamp;
                 cd_updatedAt := stamp; cd_isActive := true |} in
  let cs := [("c0", old); ("c1", acme)] in
  let r := authenticateCompanyAccessCode None cs (Some "ACME-1") in
  company_next r = 1%nat /\ company_sent r = [] /\ queried r = ["ACME-1"] /\
  exists y, req_company r = Some (company_of y) /\ co_accessCode (company_of y) = "ACME-1" /\
            co_isActive (company_of y) = true.
Proof.
  intros stamp old acme cs.
  apply (@active_company_is_admitted cs "ACME-1" ("c1", acme)).
  - discriminate.
  - right. left. reflexivity.
  - reflexivity.
  - reflexivity.
Defined.

(** X11.  Every run of [authenticateCompanyAccessCode] ends in exactly
    one of two ways: [next()] called once with a company attached and no
    response, or one response and nothing attached.  The response is 401
    MISSING_ACCESS_CODE for an absent or empty header, and then the store is
    not asked; 500 AUTHENTICATION_ERROR when the store fails; 401
    INVALID_ACCESS_CODE otherwise. *)
Theorem company_run_outcomes
    (fault : option Js.Thrown) (cs : Companies) (accessCode : option string) :
  let r := authenticateCompanyAccessCode fault cs accessCode in
  (company_next r = 1%nat /\ company_sent r = [] /\ req_company r <> None) \/
  (company_next r = 0%nat /\ req_company r = None /\
   ((Js.truthy accessCode = false /\ queried r = [] /\
     company_sent r =
       [response 401 "MISSING_ACCESS_CODE" "x-access-code header is required"]) \/
    (Js.truthy accessCode = true /\ fault <> None /\
     company_sent r =
       [response 500 "AUTHENTICATION_ERROR" "Failed to authenticate company access code"]) \/
    (Js.truthy accessCode = true /\ fault = None /\
     company_sent r =
       [response 401 "INVALID_ACCESS_CODE" "Invalid or inactive access code"]))).
Proof.
  intros r. subst r. unfold authenticateCompanyAccessCode.
  destruct accessCode as [code|].
  2:{ right. cbn. repeat split. left. repeat split. }
  destruct (Js.truthy (Some code)) eqn:Ht; cbn [negb].
  2:{ right. cbn. repeat split. left. repeat split. }
  destruct fault as [e|].
  { right. cbn. repeat split. right. left. repeat split. discriminate. }
  destruct (company_query cs code) as [|x rest].
  - right. cbn. repeat split. right. right. repeat split.
  - left. cbn. repeat split. discriminate.
Qed.

(* ================================================================== *)
(** ** The routes [/token] and [/login] *)

(** The plumbing of the routes, on top of [run]. *)
Ltac run_route :=
  cbv beta iota zeta delta
    [login token_exchange findOne_any save_synced route_catch
     ExpressApi.local_path ExpressApi.external_path ExpressApi.find_or_create
     exec bind try_catch ret throw modify record_call set_users set_req_user
     set_req_mongoUser respond next of_result fault_of jwt_verify_call
     verifyIdToken_call findOne save_new updateLastLogin begin_request
     fst snd users calls req_user req_mongoUser sent next_calls response];
  cbn [isActive role uid set_lastLoginAt User_new negb].

Ltac crack_route := crack_using run_route; run_route.

Lemma active_of_found (c : Collection) (u : string) (d : IUser) :
  find_active c u = Some d -> negb (isActive d) = true -> False.
Proof.
  intros H Hn. apply find_active_some in H. destruct H as [_ [_ H]].
  rewrite H in Hn. discriminate.
Qed.

(** X12.  [/token] never answers ACCOUNT_DISABLED: the Account it goes on
    with comes from the lookup on active Accounts or was just created
    active, so the check that follows cannot fail. *)
Theorem token_exchange_never_account_disabled
    (sign : SignPayload -> string -> Z -> string) (env : Env)
    (body : IdTokenRequest) (c : Collection) :
  let s := exec (token_exchange sign env body) (begin_request c) in
  existsb (fun x => String.eqb (error x) "ACCOUNT_DISABLED") (sent s) = false.
Proof.
  intros s. subst s.
  crack_route; cbn [existsb app error String.eqb Ascii.eqb Bool.eqb orb];
    try reflexivity;
    try (exfalso; eapply active_of_found; eassumption);
    try discriminate.
Qed.

Lemma find_active_appended (c : Collection) (u : string) (d : IUser) :
  find_active c u = None -> uid d = u -> isActive d = true ->
  find_active (c ++ [d])%list u = Some d.
Proof.
  unfold find_active. intros Hn Hu Ha.
  induction c as [|x l IH]; cbn [app find] in *.
  - unfold matches_active. now rewrite Hu, String.eqb_refl, Ha.
  - destruct (matches_active u x); [discriminate|]. now apply IH.
Qed.

(** What a successful [/token] has done. *)
Lemma token_exchange_success
    (sign : SignPayload -> string -> Z -> string) (env : Env)
    (body : IdTokenRequest) (c : Collection) (data : TokenData) :
  fst (token_exchange sign env body (begin_request c)) = Normal (Some data) ->
  let s := exec (token_exchange sign env body) (begin_request c) in
  exists decodedToken u,
    verifyIdToken env (idToken body) = inr decodedToken /\
    find_active (users s) (id_uid decodedToken) = Some u /\
    accessToken data =
      sign {| sp_uid := id_uid decodedToken;
              sp_email := Js.or_else (id_email decodedToken) "";
              sp_role := role_name (role u);
              sp_type := "access_token" |} (secret_of env) 86400 /\
    expiresIn data = 86400 /\ tokenType data = "Bearer" /\
    sent s = [] /\ validation_errors body = [].
Proof.
  intros H s. subst s. revert H. unfold secret_of.
  crack_route; intros H; try discriminate H; injection H as <-.
  all: match goal with
       | H : negb (is_nil ?l) = false |- _ => destruct l; [|discriminate H]
       end.
  - match goal with
    | Hf : find_active c _ = Some ?d |- _ =>
        pose proof (@find_active_update c _ (now env) d Hf) as Hp;
        destruct (@find_active_some _ _ _ Hf) as [_ [Hu _]];
        eexists _, (set_lastLoginAt d (now env))
    end.
    rewrite Hu. repeat split; try reflexivity. exact Hp.
  - match goal with
    | Hi : insert_user c ?d = inr _, Hf : find_active c _ = None |- _ =>
        apply insert_user_result in Hi; subst;
        eexists _, d
    end.
    repeat split; try reflexivity.
    apply find_active_appended; [assumption | reflexivity | reflexivity].
Qed.

(** X13.  Whenever [/token] answers with an access token, the payload it
    had signed carries the subject id of the verified identity token, the
    type 'access_token', the email of the claims (or the empty string), and
    as role the role of the active Account stored for that subject when the
    run ends; it is signed with the secret [authenticateToken] verifies with,
    for 24 hours. *)
Theorem token_exchange_signs_stored_role
    (sign : SignPayload -> string -> Z -> string) (env : Env)
    (body : IdTokenRequest) (c : Collection) (data : TokenData) :
  fst (token_exchange sign env body (begin_request c)) = Normal (Some data) ->
  let s := exec (token_exchange sign env body) (begin_request c) in
  exists decodedToken u,
    verifyIdToken env (idToken body) = inr decodedToken /\
    find_active (users s) (id_uid decodedToken) = Some u /\
    accessToken data =
      sign {| sp_uid := id_uid decodedToken;
              sp_email := Js.or_else (id_email decodedToken) "";
              sp_role := role_name (role u);
              sp_type := "access_token" |} (secret_of env) 86400 /\
    expiresIn data = 86400 /\ tokenType data = "Bearer" /\
    sent s = [] /\ validation_errors body = [].
Proof.
  exact (@token_exchange_success sign env body c data).
Qed.

Lemma token_exchange_signs_stored_role_witness :
  let sign := fun (p : SignPayload) (secret : string) (ttl : Z) =>
                "jwt." ++ sp_uid p ++ "." ++ sp_role p in
  let boss :=
    {| uid := "boss1"; email := Some "boss@example.com"; displayName := Some "Boss";
       photoURL := None; role := ADMIN; isActive := true; profile := emptyProfile;
       lastLoginAt := None |} in
  let claims := sample_claims "boss1" None (Some "Boss") None in
  let env := env_external (inr claims) no_fault 1700000100 in
  let body := {| validation_errors := []; idToken := "valid-firebase-token" |} in
  let data := {| accessToken := "jwt.boss1.admin"; expiresIn := 86400;
                 tokenType := "Bearer" |} in
  let s := exec (token_exchange sign env body) (begin_request [boss]) in
  exists decodedToken u,
    verifyIdToken env (idToken body) = inr decodedToken /\
    find_active (users s) (id_uid decodedToken) = Some u /\
    accessToken data =
      sign {| sp_uid := id_uid decodedToken;
              sp_email := Js.or_else (id_email decodedToken) "";
              sp_role := role_name (role u);
              sp_type := "access_token" |} (secret_of env) 86400 /\
    expiresIn data = 86400 /\ tokenType data = "Bearer" /\
    sent s = [] /\ validation_errors body = [].
Proof.
  intros sign boss claims env body data.
  apply (@token_exchange_signs_stored_role sign env body [boss] data).
  reflexivity.
Defined.

(** The local path, when the Account is found. *)
Lemma local_login
    (env : Env) (req : Request) (c : Collection) (tk : string)
    (decoded : AccessTokenPayload) (d : IUser) :
  credential req = Some tk ->
  jwt_verify env tk (secret_of env) = inr decoded ->
  at_type decoded = "access_token" ->
  store_fault env OpFindOne = None ->
  find_active c (at_uid decoded) = Some d ->
  ExpressApi.authenticateToken env req (begin_request c) =
  (Normal tt,
   {| users := c;
      calls := [CallJwtVerify tk (secret_of env); CallFindOne (at_uid decoded)];
      req_user := Some (ExpressApi.mockFirebaseToken decoded d);
      req_mongoUser := Some d; sent := []; next_calls := 1 |}).
Proof.
  intros Hc Hv Ht Hf Hd.
  rewrite (authenticateToken_credential env req _ Hc).
  unfold secret_of in *. run. rewrite Hv. run. rewrite Ht.
  cbn [String.eqb Ascii.eqb Bool.eqb]. rewrite Hf. run. rewrite Hd. reflexivity.
Qed.

(** X14.  An access token answered by [/token], presented next as bearer
    credential, is resolved on the local path: when [jwt.verify] gives back
    the subject id and type that were signed and the store is reachable,
    [authenticateToken] attaches the active Account of that subject, whose
    role is the role written in the token, calls [next()], leaves the
    collection as [/token] left it and does not call the provider. *)
Theorem token_exchange_then_authenticate
    (sign : SignPayload -> string -> Z -> string) (env env' : Env)
    (body : IdTokenRequest) (c : Collection) (data : TokenData)
    (decodedToken : DecodedIdToken) (req : Request) (decoded : AccessTokenPayload) :
  fst (token_exchange sign env body (begin_request c)) = Normal (Some data) ->
  verifyIdToken env (idToken body) = inr decodedToken ->
  credential req = Some (accessToken data) ->
  jwt_verify env' (accessToken data) (secret_of env') = inr decoded ->
  at_uid decoded = id_uid decodedToken ->
  at_type decoded = "access_token" ->
  store_fault env' OpFindOne = None ->
  let s1 := exec (token_exchange sign env body) (begin_request c) in
  let s2 := exec (ExpressApi.authenticateToken env' req) (begin_request (users s1)) in
  next_calls s2 = 1%nat /\ sent s2 = [] /\
  users s2 = users s1 /\
  filter is_provider_call (calls s2) = [] /\
  exists u,
    req_mongoUser s2 = Some u /\ uid u = id_uid decodedToken /\
    isActive u = true /\
    accessToken data =
      sign {| sp_uid := id_uid decodedToken;
              sp_email := Js.or_else (id_email decodedToken) "";
              sp_role := role_name (role u);
              sp_type := "access_token" |} (secret_of env) 86400.
Proof.
  intros H Hv Hc Hj Hu Ht Hf s1 s2.
  destruct (@token_exchange_success sign env body c data H)
    as [dt [u [Hv' [Hfind [Hacc _]]]]].
  rewrite Hv in Hv'. injection Hv' as <-.
  fold s1 in Hfind. rewrite <- Hu in Hfind.
  pose proof (@local_login env' req (users s1) _ decoded u Hc Hj Ht Hf Hfind) as E.
  subst s2. unfold exec at 1 2 3 4 5. rewrite E.
  cbn [snd next_calls sent users calls req_mongoUser filter is_provider_call].
  repeat split. exists u.
  destruct (@find_active_some _ _ _ Hfind) as [_ [Huid Ha]].
  repeat split; auto. congruence.
Qed.

Lemma token_exchange_then_authenticate_witness :
  let sign := fun (p : SignPayload) (secret : string) (ttl : Z) =>
                "jwt." ++ sp_uid p ++ "." ++ sp_role p in
  let claims := sample_claims "user123" (Some "test@example.com") (Some "Test User") None in
  let env := env_external (inr claims) no_fault 1700000100 in
  let env' := env_local "access_token" in
  let body := {| validation_errors := []; idToken := "valid-firebase-token" |} in
  let data := {| accessToken := "jwt.user123.user"; expiresIn := 86400;
                 tokenType := "Bearer" |} in
  let req := bearer "jwt.user123.user" in
  let s1 := exec (token_exchange sign env body) (begin_request []) in
  let s2 := exec (ExpressApi.authenticateToken env' req) (begin_request (users s1)) in
  next_calls s2 = 1%nat /\ sent s2 = [] /\
  users s2 = users s1 /\
  filter is_provider_call (calls s2) = [] /\
  exists u,
    req_mongoUser s2 = Some u /\ uid u = id_uid claims /\
    isActive u = true /\
    accessToken data =
      sign {| sp_uid := id_uid claims;
              sp_email := Js.or_else (id_email claims) "";
              sp_role := role_name (role u);
              sp_type := "access_token" |} (secret_of env) 86400.
Proof.
  intros sign claims env env' body data req.
  apply (@token_exchange_then_authenticate sign env env' body [] data claims req
           (sample_payload "access_token")).
  - reflexivity.
  - reflexivity.
  - reflexivity.
  - reflexivity.
  - reflexivity.
  - reflexivity.
  - reflexivity.
Defined.

Lemma opt_string_eqb_eq (a b : option string) :
  opt_string_eqb a b = true -> a = b.
Proof.
  destruct a, b; cbn; intros H; try discriminate; [|reflexivity].
  apply String.eqb_eq in H. now subst.
Qed.

Lemma find_by_uid_some (c : Collection) (u : string) (d : IUser) :
  find_by_uid c u = Some d -> In d c /\ uid d = u.
Proof.
  unfold find_by_uid. intros H. apply find_some in H.
  destruct H as [Hin Hu]. apply String.eqb_eq in Hu. auto.
Qed.

Lemma find_by_uid_synced (c : Collection) (u : string) (d d' : IUser) :
  find_by_uid c u = Some d -> uid d' = u ->
  find_by_uid
    (map (fun x => if String.eqb (uid x) (uid d') then sync_fields x d' else x) c) u
  = Some (sync_fields d d').
Proof.
  unfold find_by_uid. intros H Hu. rewrite Hu.
  induction c as [|x l IH]; [discriminate|].
  cbn [map find] in *.
  destruct (String.eqb (uid x) u) eqn:E.
  - cbn [sync_fields uid]. rewrite E. now injection H as ->.
  - rewrite E. now apply IH.
Qed.

(** X15.  [/login] for a subject whose Account is stored, active or not:
    email, name and avatar are taken from the claims where these are
    non-empty and kept from the stored document otherwise (through the
    setters of the schema: the email lower-cased, the name trimmed); the
    login date is set; role, active flag and profile stay; no Account is
    added; the answer is 200 with [isNewUser] false. *)
Theorem login_syncs_existing_account
    (env : Env) (body : IdTokenRequest) (c : Collection)
    (decodedToken : DecodedIdToken) (d : IUser) :
  validation_errors body = [] ->
  verifyIdToken env (idToken body) = inr decodedToken ->
  store_up env ->
  find_by_uid c (id_uid decodedToken) = Some d ->
  let new_email :=
    option_map (Js.toLowerCase (runtime env)) (or_opt (id_email decodedToken) (email d)) in
  Js.truthy (Some (uid d)) = true ->
  Js.truthy new_email = true ->
  (forall x, In x c -> uid x <> uid d -> email x <> new_email) ->
  let r := login env body (begin_request c) in
  exists u,
    fst r = Normal (Some {| login_user := u; isNewUser := false |}) /\
    find_by_uid (users (snd r)) (id_uid decodedToken) = Some u /\
    email u = new_email /\
    displayName u =
      option_map (Js.trim (runtime env)) (or_opt (id_name decodedToken) (displayName d)) /\
    photoURL u = or_opt (id_picture decodedToken) (photoURL d) /\
    lastLoginAt u = Some (now env) /\
    uid u = uid d /\ role u = role d /\ isActive u = isActive d /\
    profile u = profile d /\
    List.length (users (snd r)) = List.length c /\
    sent (snd r) = [].
Proof.
  intros Hval Hv Hup Hd new_email Huid Hem Hfree r. subst r new_email.
  destruct (@find_by_uid_some _ _ _ Hd) as [_ Hu].
  assert (Hclash :
            existsb (fun x => (negb (String.eqb (uid x) (uid d))
                               && opt_string_eqb (email x)
                                    (option_map (Js.toLowerCase (runtime env))
                                       (or_opt (id_email decodedToken) (email d))))%bool) c
            = false).
  { destruct (existsb _ c) eqn:E; [|reflexivity]. exfalso.
    apply existsb_exists in E. destruct E as [x [Hin Hx]].
    apply andb_true_iff in Hx. destruct Hx as [Hn He].
    apply negb_true_iff, String.eqb_neq in Hn.
    apply (Hfree x Hin Hn). now apply opt_string_eqb_eq. }
  eexists.
  run_route. rewrite Hval. cbn [is_nil negb]. run_route. rewrite Hv. run_route.
  rewrite (Hup OpFindOne). run_route. rewrite Hd. run_route.
  unfold validate_user, required_ok. cbn [uid email]. rewrite Huid, Hem.
  cbn [andb]. run_route.
  rewrite (Hup OpSave). run_route. cbn [uid email]. rewrite Hclash. run_route.
  split; [reflexivity|]. split.
  { match goal with |- find_by_uid (map _ c) _ = Some ?u =>
      change (find_by_uid
                (map (fun x => if String.eqb (uid x) (uid u) then sync_fields x u else x) c)
                (id_uid decodedToken) = Some u);
      rewrite (@find_by_uid_synced c (id_uid decodedToken) d u Hd Hu)
    end. reflexivity. }
  cbn [email displayName photoURL lastLoginAt uid role isActive profile].
  rewrite length_map. repeat split.
Qed.

Lemma login_syncs_existing_account_witness :
  let d := sample_user "firebase123" "old@example.com" "Old Name" false in
  let claims := sample_claims "firebase123" (Some "New@Example.com") None
                  (Some "https://example.com/new.jpg") in
  let env := env_external (inr claims) no_fault 1700000100 in
  let body := {| validation_errors := []; idToken := "valid-firebase-token" |} in
  let new_email := option_map (Js.toLowerCase (runtime env)) (or_opt (id_email claims) (email d)) in
  let r := login env body (begin_request [d]) in
  exists u,
    fst r = Normal (Some {| login_user := u; isNewUser := false |}) /\
    find_by_uid (users (snd r)) (id_uid claims) = Some u /\
    email u = new_email /\
    displayName u = option_map (Js.trim (runtime env)) (or_opt (id_name claims) (displayName d)) /\
    photoURL u = or_opt (id_picture claims) (photoURL d) /\
    lastLoginAt u = Some (now env) /\
    uid u = uid d /\ role u = role d /\ isActive u = isActive d /\
    profile u = profile d /\
    List.length (users (snd r)) = List.length [d] /\
    sent (snd r) = [].
Proof.
  intros d claims env body.
  apply (@login_syncs_existing_account env body [d] claims d).
  - reflexivity.
  - reflexivity.
  - intros []; reflexivity.
  - reflexivity.
  - reflexivity.
  - reflexivity.
  - intros x [<-|[]] H. now elim H.
Defined.

Lemma find_by_uid_none_count (c : Collection) (u : string) :
  find_by_uid c u = None -> count_uid c u = 0%nat.
Proof.
  unfold find_by_uid, count_uid. induction c as [|x l IH]; [reflexivity|].
  cbn [find filter]. destruct (String.eqb (uid x) u); [discriminate | exact IH].
Qed.

Lemma find_by_uid_some_count (c : Collection) (u : string) (d : IUser) :
  find_by_uid c u = Some d -> (1 <= count_uid c u)%nat.
Proof.
  unfold find_by_uid, count_uid. induction c as [|x l IH]; [discriminate|].
  cbn [find filter]. destruct (String.eqb (uid x) u); [cbn; lia | exact IH].
Qed.

Lemma count_uid_synced (c : Collection) (d : IUser) (u : string) :
  count_uid (map (fun x => if String.eqb (uid x) (uid d) then sync_fields x d else x) c) u
  = count_uid c u.
Proof.
  unfold count_uid. induction c as [|x l IH]; [reflexivity|].
  cbn [map filter].
  replace (uid (if String.eqb (uid x) (uid d) then sync_fields x d else x)) with (uid x)
    by (destruct (String.eqb (uid x) (uid d)); reflexivity).
  destruct (String.eqb (uid x) u); cbn [List.length]; now rewrite IH.
Qed.

(** X16.  Whenever [/login] answers 200, [isNewUser] is true exactly when
    no Account of the subject, active or not, was stored before; one Account
    is added in that case and none otherwise, so the number of Accounts of
    the subject never grows beyond what it was, or one. *)
Theorem login_creates_only_when_absent
    (env : Env) (body : IdTokenRequest) (c : Collection)
    (data : LoginData) (decodedToken : DecodedIdToken) :
  fst (login env body (begin_request c)) = Normal (Some data) ->
  verifyIdToken env (idToken body) = inr decodedToken ->
  let s := exec (login env body) (begin_request c) in
  isNewUser data = Nat.eqb (count_uid c (id_uid decodedToken)) 0 /\
  count_uid (users s) (id_uid decodedToken)
    = Nat.max 1 (count_uid c (id_uid decodedToken)) /\
  List.length (users s)
    = (List.length c + (if isNewUser data then 1 else 0))%nat /\
  uid (login_user data) = id_uid decodedToken.
Proof.
  intros H Hv s. subst s. revert H Hv.
  crack_route; intros H Hv; try discriminate H; try discriminate Hv;
    injection H as <-; injection Hv as ->;
    cbn [isNewUser login_user] in *; try discriminate.
  - match goal with
    | Hf : find_by_uid c _ = Some ?d |- _ =>
        pose proof (find_by_uid_some_count _ _ Hf) as Hc;
        destruct (@find_by_uid_some _ _ _ Hf) as [_ Hu]
    end.
    cbn [isNewUser login_user uid].
    match goal with
    | |- context [count_uid (map ?f c) ?u] =>
        match f with
        | (fun x => if String.eqb (uid x) _ then sync_fields x ?d' else x) =>
            change (count_uid (map f c) u)
              with (count_uid
                      (map (fun x => if String.eqb (uid x) (uid d')
                                     then sync_fields x d' else x) c) u);
            rewrite (count_uid_synced c d' u)
        end
    end.
    rewrite length_map.
    destruct (count_uid c (id_uid decodedToken)) as [|n]; [lia|].
    repeat split; try reflexivity; try lia. exact Hu.
  - match goal with
    | Hi : insert_user c _ = inr _, Hf : find_by_uid c _ = None |- _ =>
        apply insert_user_result in Hi; subst;
        apply find_by_uid_none_count in Hf
    end.
    cbn [isNewUser login_user uid].
    rewrite count_uid_app, length_app.
    match goal with Hf : count_uid c _ = 0%nat |- _ => rewrite Hf end.
    unfold count_uid. cbn [filter uid]. rewrite String.eqb_refl.
    repeat split.
Qed.

Lemma login_creates_only_when_absent_witness :
  let claims := sample_claims "newuser123" (Some "newuser@example.com")
                  (Some "New User") None in
  let env := env_external (inr claims) no_fault 1700000100 in
  let body := {| validation_errors := []; idToken := "valid-firebase-token" |} in
  let c := [sample_user "u0" "first@example.com" "First" true] in
  let data :=
    {| login_user :=
         User_new Js.ascii_runtime "newuser123" (Some "newuser@example.com") (Some "New User") None
           USER true 1700000100;
       isNewUser := true |} in
  let s := exec (login env body) (begin_request c) in
  isNewUser data = Nat.eqb (count_uid c (id_uid claims)) 0 /\
  count_uid (users s) (id_uid claims) = Nat.max 1 (count_uid c (id_uid claims)) /\
  List.length (users s) = (List.length c + (if isNewUser data then 1 else 0))%nat /\
  uid (login_user data) = id_uid claims.
Proof.
  intros claims env body c data.
  apply (@login_creates_only_when_absent env body c data claims).
  - reflexivity.
  - reflexivity.
Defined.

(* ================================================================== *)
(** ** The route [PATCH /update] *)

(** X17.  [PATCH /update] never changes the subject id, email, role,
    active flag, avatar or login date of any stored Account, whatever the
    body holds, and it leaves every Account but the one of the authenticated
    subject exactly as it was: a user can neither make themself admin, nor
    reactivate an Account, nor edit another user. *)
Theorem update_profile_keeps_identity
    (parse : string -> Z) (env : Env) (body : UpdateProfileRequest) (s : State) :
  let s' := exec (update_profile parse env body) s in
  Forall2 same_identity (users s) (users s') /\
  Forall2 (same_unless (option_map uid (req_mongoUser s))) (users s) (users s').
Proof.
  intros s'. subst s'.
  assert (Hsame : Forall2 same_identity (users s) (users s) /\
                  Forall2 (same_unless (option_map uid (req_mongoUser s)))
                    (users s) (users s)).
  { split; apply Forall2_diag; intros x; [repeat split | now left]. }
  unfold exec, update_profile, try_catch, bind, respond, modify, ret.
  destruct (negb (is_nil (up_errors body))); [exact Hsame|].
  destruct (req_mongoUser s) as [u|] eqn:Hu; [|exact Hsame].
  unfold save_profile, set_req_mongoUser, record_call, bind, modify, fault_of.
  cbn [fst snd users].
  destruct (validate_user _); unfold throw, ret; cbn [fst snd users];
    [|exact Hsame].
  destruct (store_fault env OpSave); unfold throw, ret, set_users, modify;
    cbn [fst snd users]; [exact Hsame|].
  cbn [apply_update uid].
  split; apply Forall2_same; intros x;
    destruct (String.eqb (uid x) (uid u)) eqn:E.
  - repeat split.
  - repeat split.
  - right. apply String.eqb_eq in E. cbn [option_map]. now rewrite E.
  - now left.
Qed.




(* ================================================================== *)
(** ** More on [authenticateToken] *)

Lemma includes_cons (a : ascii) (s sub : string) :
  Js.includes (String a s) sub = false ->
  String.prefix sub (String a s) = false /\ Js.includes s sub = false.
Proof.
  cbn [Js.includes]. intros H. now apply orb_false_iff in H.
Qed.

Lemma split_without_separator (sep cur s : string) :
  sep <> "" -> Js.includes s sep = false ->
  Js.split_from sep 0 cur s = [cur ++ s].
Proof.
  intros Hsep. revert cur. induction s as [|a s IH]; intros cur H.
  - cbn. f_equal. clear. induction cur as [|b cur IH]; cbn; [reflexivity | now rewrite <- IH].
  - apply includes_cons in H. destruct H as [Hp Hi].
    cbn [Js.split_from]. rewrite Hp. rewrite (IH _ Hi). f_equal.
    clear. induction cur as [|b cur IH]; cbn; [reflexivity | now rewrite IH].
Qed.

(** X19.  A header made of the prefix and a non-empty token in which
    'Bearer ' does not occur carries that token, whole, as its credential. *)
Theorem credential_is_whole_token (tk : string) :
  tk <> "" -> Js.includes tk "Bearer " = false ->
  credential (bearer tk) = Some tk.
Proof.
  intros Hne Hi. unfold credential, bearer. cbn [authorization].
  unfold Js.startsWith. rewrite prefix_app.
  unfold Js.split. rewrite split_from_sep.
  rewrite (@split_without_separator (String "B" "earer ") "" tk); [|discriminate|exact Hi].
  cbn [nth_error append]. apply String.eqb_neq in Hne. now rewrite Hne.
Qed.

Lemma credential_is_whole_token_witness :
  credential (bearer "eyJhbGciOiJIUzI1NiJ9.e30.c2ln") = Some "eyJhbGciOiJIUzI1NiJ9.e30.c2ln".
Proof.
  apply credential_is_whole_token.
  - discriminate.
  - reflexivity.
Defined.

(** X20.  Every response [authenticateToken] sends has the status 401 and
    one of the kinds UNAUTHORIZED, INVALID_TOKEN and USER_NOT_FOUND;
    TOKEN_EXPIRED and AUTHENTICATION_FAILED are never answered, whatever the
    verifiers and the store do. *)
Theorem authenticateToken_error_kinds (env : Env) (req : Request) (c : Collection) :
  let s := exec (ExpressApi.authenticateToken env req) (begin_request c) in
  forallb (fun x => (Z.eqb (status x) 401
                     && existsb (String.eqb (error x)) authenticateToken_kinds)%bool)
    (sent s) = true.
Proof.
  intros s. subst s.
  destruct (credential req) as [tk|] eqn:Hc.
  - unfold exec. rewrite (authenticateToken_credential env req _ Hc).
    crack; run; reflexivity.
  - destruct (authenticateToken_no_credential env req (begin_request c) Hc)
      as [e [m [He E]]].
    unfold exec. rewrite E. destruct He as [-> | ->]; reflexivity.
Qed.

(** X21.  For a request with a credential the first collaborator called
    is [jwt.verify], on that credential; the secret is the one of the
    environment, and the hard-coded fallback when [JWT_SECRET] is unset or
    empty. *)
Theorem local_verification_comes_first
    (env : Env) (req : Request) (c : Collection) (tk : string) :
  credential req = Some tk ->
  let s := exec (ExpressApi.authenticateToken env req) (begin_request c) in
  exists secret rest,
    calls s = CallJwtVerify tk secret :: rest /\
    (JWT_SECRET env = None \/ JWT_SECRET env = Some "" ->
     secret = "fallback-secret-key-change-in-production") /\
    (forall k, JWT_SECRET env = Some k -> k <> "" -> secret = k).
Proof.
  intros Hc s. subst s. unfold exec.
  rewrite (authenticateToken_credential env req _ Hc).
  exists (Js.or_else (JWT_SECRET env) ExpressApi.fallback_secret).
  assert (Hs : (JWT_SECRET env = None \/ JWT_SECRET env = Some "" ->
                Js.or_else (JWT_SECRET env) ExpressApi.fallback_secret
                = "fallback-secret-key-change-in-production") /\
               (forall k, JWT_SECRET env = Some k -> k <> "" ->
                Js.or_else (JWT_SECRET env) ExpressApi.fallback_secret = k)).
  { split.
    - intros [-> | ->]; reflexivity.
    - intros k -> Hk. cbn. apply String.eqb_neq in Hk. now rewrite Hk. }
  crack; run; cbn [app]; eexists; (split; [reflexivity | exact Hs]).
Qed.

Lemma local_verification_comes_first_witness :
  let env := env_local "access_token" in
  let s := exec (ExpressApi.authenticateToken env (bearer "valid-jwt-token"))
             (begin_request []) in
  exists secret rest,
    calls s = CallJwtVerify "valid-jwt-token" secret :: rest /\
    (JWT_SECRET env = None \/ JWT_SECRET env = Some "" ->
     secret = "fallback-secret-key-change-in-production") /\
    (forall k, JWT_SECRET env = Some k -> k <> "" -> secret = k).
Proof.
  intros env.
  apply (@local_verification_comes_first env (bearer "valid-jwt-token") [] "valid-jwt-token").
  reflexivity.
Defined.
